(** * Oracle price feeder: VWAP, cross-venue consensus and the Astroport connector

    A shallow embedding of the aggregation core of the price feeder:
    - [Dec]: the 18-digit fixed-point decimal the code computes with (sdk.Dec);
    - [ComputeVWAP] and [StandardDeviation] (package oracle);
    - [Poll] and [getPoolAssets] of the Astroport provider
      (oracle/provider/astroport.go). *)

From Stdlib Require Import ZArith Lia Ascii String.
From Stdlib Require Import PrimFloat FloatOps SpecFloat FloatAxioms.
From stdpp Require Import gmap strings list fin_maps.

(** ** Decimals

    sdk.Dec (cosmos-sdk, a dependency of the feeder) wraps a big integer
    holding the value scaled by 10^18.  The operations below are the ones
    the feeder calls; the expected values of the package's tests are
    reproduced digit for digit (see the examples on TestComputeVWAP and
    TestStandardDeviation below).  After Mul and Quo the library panics
    with "Int overflow" when the result needs more than [maxDecBitLen]
    bits.  [Mul] and [Quo] below are the operations before that guard, as
    the aggregation functions, which the design states over arbitrary
    precision, use them; the provider's divisions go through [quo] further
    down, which applies the guard. *)
Module Dec.
Local Open Scope Z_scope.

Record t : Type := mk { raw : Z }.

Definition Precision : Z := 18.
Definition precisionReuse : Z := 10 ^ Precision.
Definition fivePrecision : Z := precisionReuse / 2.

Definition zero : t := mk 0.
Definition one : t := mk precisionReuse.
Definition smallest : t := mk 1.

Definition IsZero (d : t) : bool := raw d =? 0.
Definition IsNegative (d : t) : bool := raw d <? 0.
Definition Neg (d : t) : t := mk (- raw d).
Definition Abs (d : t) : t := mk (Z.abs (raw d)).
Definition GT (a b : t) : bool := raw a >? raw b.
Definition Add (a b : t) : t := mk (raw a + raw b).
Definition Sub (a b : t) : t := mk (raw a - raw b).

(** chopPrecisionAndRound: drop 18 digits with banker's rounding; the sign
    is removed first and put back on the result. *)
Definition chopAbs (d : Z) : Z :=
  let quo := d / precisionReuse in
  let rem := d mod precisionReuse in
  if rem =? 0 then quo
  else match rem ?= fivePrecision with
       | Lt => quo
       | Gt => quo + 1
       | Eq => if Z.even quo then quo else quo + 1
       end.

Definition chopPrecisionAndRound (d : Z) : Z :=
  if d <? 0 then - chopAbs (- d) else chopAbs d.

Definition Mul (a b : t) : t := mk (chopPrecisionAndRound (raw a * raw b)).

(** Quo: big.Int.Quo truncates towards zero and panics on a zero divisor;
    [None] is that panic. *)
Definition Quo (a b : t) : option t :=
  if raw b =? 0 then None
  else Some (mk (chopPrecisionAndRound
                   (Z.quot (raw a * precisionReuse * precisionReuse) (raw b)))).

(** QuoInt64 truncates; the feeder only divides by a positive count. *)
Definition QuoInt64 (a : t) (i : Z) : t := mk (Z.quot (raw a) i).

(** ApproxSqrt is ApproxRoot(2): Newton's iteration from the guess 1, at
    most [maxApproxRootIterations] rounds, stopping once the last step is
    at most the smallest decimal.  A panic inside is recovered into an
    error: [None]. *)
Definition maxApproxRootIterations : nat := 100.

Fixpoint approxSqrtLoop (d guess delta : t) (iter : nat) : option t :=
  match iter with
  | O => Some guess
  | S iter' =>
      if GT (Abs delta) smallest then
        let prev := Mul guess one in
        let prev := if IsZero prev then smallest else prev in
        match Quo d prev with
        | None => None
        | Some q =>
            let delta' := QuoInt64 (Sub q guess) 2 in
            approxSqrtLoop d (Add guess delta') delta' iter'
        end
      else Some guess
  end.

Definition ApproxSqrt (d : t) : option t :=
  if IsNegative d then
    let n := Neg d in
    if IsZero n || (raw n =? precisionReuse) then Some (Neg n)
    else option_map Neg (approxSqrtLoop n one one maxApproxRootIterations)
  else if IsZero d || (raw d =? precisionReuse) then Some d
  else approxSqrtLoop d one one maxApproxRootIterations.

(** big.Int.BitLen of the scaled integer: the length of its absolute value
    in bits, 0 for 0; and the bound the library checks it against (255 bits
    of integer part and 60 bits for the 18 digits). *)
Definition BitLen (d : t) : Z :=
  if raw d =? 0 then 0 else Z.log2 (Z.abs (raw d)) + 1.

Definition maxDecBitLen : Z := 315.

(** Decimal literal [n / 10^k], as MustNewDecFromStr reads it (k <= 18). *)
Definition ofDigits (n : Z) (k : Z) : t := mk (n * 10 ^ (Precision - k)).
End Dec.

Abbreviation Dec := Dec.t.

#[global] Instance Dec_eq_dec : EqDecision Dec.
Proof. solve_decision. Defined.

(** ** Tickers (oracle/types) *)

Module TickerPrice.
Record t : Type := mk { Price : Dec; Volume : Dec; Time : Z }.
End TickerPrice.
Abbreviation TickerPrice := TickerPrice.t.

Module CurrencyPair.
Record t : Type := mk { Base : string; Quote : string }.
End CurrencyPair.
Abbreviation CurrencyPair := CurrencyPair.t.

Definition error : Type := string.

(** ** ComputeVWAP *)

Definition sumDec (l : list Dec) : Dec := foldr Dec.Add Dec.zero l.

(** Modelled from the spec: ComputeVWAP (package oracle) is not among the
    sources.  Per section 4.3 it returns Σ(price_i × volume_i) / Σ(volume_i);
    empty input and a zero total volume are explicit errors. *)
Definition ComputeVWAP (tickers : list TickerPrice) : error + Dec :=
  match tickers with
  | [] => inl "no tickers supplied"%string
  | _ =>
      let weighted :=
        sumDec ((λ tp, Dec.Mul (TickerPrice.Price tp) (TickerPrice.Volume tp)) <$> tickers) in
      let volumeSum := sumDec (TickerPrice.Volume <$> tickers) in
      match Dec.Quo weighted volumeSum with
      | None => inl "total volume is zero"%string
      | Some vwap => inr vwap
      end
  end.

(** ** StandardDeviation *)

(** The prices reported for [base]: one per venue whose map has the pair. *)
Definition pricesFor (prices : gmap string (gmap string Dec)) (base : string)
  : list Dec :=
  omap (λ vp, vp.2 !! base) (map_to_list prices).

(** Every pair some venue reports. *)
Definition allPairs (prices : gmap string (gmap string Dec)) : gset string :=
  ⋃ ((λ vp, dom vp.2) <$> map_to_list prices).

(** The number of distinct venues that report [base]. *)
Definition reportingVenues (prices : gmap string (gmap string Dec))
    (base : string) : nat :=
  size (filter (λ vp, is_Some (vp.2 !! base)) prices).

Definition priceSlice (prices : gmap string (gmap string Dec))
  : gmap string (list Dec) :=
  set_to_map (λ base, (base, pricesFor prices base)) (allPairs prices).

Definition numPrices (l : list Dec) : Z := Z.of_nat (length l).

Definition mean (l : list Dec) : Dec := Dec.QuoInt64 (sumDec l) (numPrices l).

Definition variance (l : list Dec) : Dec :=
  let m := mean l in
  let squares := (λ p, let deviation := Dec.Sub p m in
                       Dec.Mul deviation deviation) <$> l in
  Dec.QuoInt64 (sumDec squares) (numPrices l).

Definition minQuorum : nat := 3.

Definition hasQuorum (l : list Dec) : bool := bool_decide (minQuorum ≤ length l).

(** Modelled from the spec: StandardDeviation (package oracle) is not among
    the sources.  Per section 4.4, for each pair with at least 3 reporting
    venues, mean = (Σ price_i) / n and deviation = sqrt((Σ (price_i − mean)^2) / n);
    pairs below the quorum are absent from both maps.  The result is
    (deviations, means), or an error when a square root fails. *)
Definition StandardDeviation (prices : gmap string (gmap string Dec))
  : error + (gmap string Dec * gmap string Dec) :=
  let quorum := filter (λ bl, hasQuorum bl.2 = true) (priceSlice prices) in
  let means := mean <$> quorum in
  let roots := (λ l, Dec.ApproxSqrt (variance l)) <$> quorum in
  if decide (map_Forall (λ _ (r : option Dec), is_Some r) roots)
  then inr (omap id roots, means)
  else inl "square root failed"%string.

(** The inputs of the package's tests. *)
Definition atomTickers : list TickerPrice :=
  [ TickerPrice.mk (Dec.ofDigits 2821 2) (Dec.ofDigits 274910278 2) 0;
    TickerPrice.mk (Dec.ofDigits 282687 4) (Dec.ofDigits 17827753314385 8) 0;
    TickerPrice.mk (Dec.ofDigits 281687 4) (Dec.ofDigits 474910253314385 8) 0 ].

(** The three ATOM prices of the package's test. *)
Definition atomPrices : list Dec :=
  [Dec.ofDigits 2821 2; Dec.ofDigits 2823 2; Dec.ofDigits 2840 2].

Definition binancePrices : gmap string Dec :=
  {[ "ATOM" := Dec.ofDigits 2821 2; "UMEE" := Dec.ofDigits 113 2;
     "LUNA" := Dec.ofDigits 6487 2 ]}%string.

Definition krakenPrices : gmap string Dec :=
  {[ "ATOM" := Dec.ofDigits 2823 2; "UMEE" := Dec.ofDigits 11305 4;
     "LUNA" := Dec.ofDigits 6485 2 ]}%string.

Definition krakenPricesNoLuna : gmap string Dec :=
  {[ "ATOM" := Dec.ofDigits 2823 2; "UMEE" := Dec.ofDigits 11305 4 ]}%string.

Definition osmosisPrices : gmap string Dec :=
  {[ "ATOM" := Dec.ofDigits 2840 2; "UMEE" := Dec.ofDigits 114 2;
     "LUNA" := Dec.ofDigits 6410 2 ]}%string.

Definition notEnoughPrices : gmap string (gmap string Dec) :=
  {[ "binance" := binancePrices; "kraken" := krakenPrices ]}%string.

Definition somePrices : gmap string (gmap string Dec) :=
  {[ "binance" := binancePrices; "kraken" := krakenPricesNoLuna;
     "osmosis" := osmosisPrices ]}%string.

Definition nonEmptyPrices : gmap string (gmap string Dec) :=
  {[ "binance" := binancePrices; "kraken" := krakenPrices;
     "osmosis" := osmosisPrices ]}%string.

(** ** Strings

    strings.ToLower and strings.ToUpper on the bytes of a string: the ASCII
    letters change case, every other byte is kept.  This is what Go computes
    on ASCII strings; Go also maps the letters outside ASCII, which these
    definitions leave as they are.  Beyond their values on ASCII strings,
    the properties below use of them only that the result of ToLower has no
    upper-case ASCII letter and the result of ToUpper no lower-case one,
    which holds of Go's functions on every string. *)
Definition isUpperByte (a : ascii) : bool :=
  let n := N_of_ascii a in ((65 <=? n) && (n <=? 90))%N.

Definition isLowerByte (a : ascii) : bool :=
  let n := N_of_ascii a in ((97 <=? n) && (n <=? 122))%N.

Definition lowerByte (a : ascii) : ascii :=
  if isUpperByte a then ascii_of_N (N_of_ascii a + 32) else a.

Definition upperByte (a : ascii) : ascii :=
  if isLowerByte a then ascii_of_N (N_of_ascii a - 32) else a.

Fixpoint mapBytes (f : ascii → ascii) (s : string) : string :=
  match s with
  | EmptyString => EmptyString
  | String a s' => String (f a) (mapBytes f s')
  end.

Definition ToLower : string → string := mapBytes lowerByte.
Definition ToUpper : string → string := mapBytes upperByte.


Fixpoint hasLower (s : string) : bool :=
  match s with
  | EmptyString => false
  | String a s' => isLowerByte a || hasLower s'
  end.

(** ** The Astroport provider (oracle/provider/astroport.go) *)

Module AstroportQuery.
Record t : Type := mk { Query : string }.
End AstroportQuery.
Abbreviation AstroportQuery := AstroportQuery.t.

Module AstroportToken.
Record t : Type := mk {
  Address : string; Symbol : string; Price : float; Decimals : float }.
End AstroportToken.
Abbreviation AstroportToken := AstroportToken.t.

Module AstroportAsset.
Record t : Type := mk { Address : string; Amount : string; Symbol : string }.
(** AstroportAsset{} *)
Definition empty : t := mk EmptyString EmptyString EmptyString.
End AstroportAsset.
Abbreviation AstroportAsset := AstroportAsset.t.

Module AstroportPool.
Record t : Type := mk {
  Volume : float; Assets : list AstroportAsset; Liquidity : float }.
End AstroportPool.
Abbreviation AstroportPool := AstroportPool.t.

Module AstroportTokensData.
Record t : Type := mk { Tokens : list AstroportToken }.
End AstroportTokensData.

Module AstroportTokensResponse.
Record t : Type := mk { Data : AstroportTokensData.t }.
End AstroportTokensResponse.
Abbreviation AstroportTokensResponse := AstroportTokensResponse.t.

Module AstroportPoolsData.
Record t : Type := mk { Pools : list AstroportPool }.
End AstroportPoolsData.

Module AstroportPoolsResponse.
Record t : Type := mk { Data : AstroportPoolsData.t }.
End AstroportPoolsResponse.
Abbreviation AstroportPoolsResponse := AstroportPoolsResponse.t.

Module Endpoint.
Record t : Type := mk { Name : string; Rest : string; PollInterval : Z }.
End Endpoint.

(** The fields of the embedded [provider] struct that Poll reads or writes.
    The mutex is held from before the pool loop to the return; one Poll runs
    alone in this model, so it leaves no trace here. *)
Module provider.
Record t : Type := mk {
  endpoints : Endpoint.t;
  pairs : gmap string CurrencyPair;
  tickers : gmap string TickerPrice
}.
Definition setTickers (p : t) (tk : gmap string TickerPrice) : t :=
  mk (endpoints p) (pairs p) tk.
End provider.
Abbreviation AstroportProvider := provider.t.

(** A Go call either returns or panics. *)
Inductive panic : Type := IndexOutOfRange | DivisionByZero | IntOverflow.

Inductive outcome (A : Type) : Type :=
| Returned (a : A)
| Panicked (why : panic).
Arguments Returned {A} a.
Arguments Panicked {A} why.

Definition obind {A B} (m : outcome A) (k : A → outcome B) : outcome B :=
  match m with
  | Returned a => k a
  | Panicked why => Panicked why
  end.

Notation "x ←! m ; k" := (obind m (λ x, k))
  (at level 20, m at level 100, k at level 200, right associativity,
   format "'[' x  ←!  m ;  '/' k ']'").

(** l[i] *)
Definition index {A} (l : list A) (i : nat) : outcome A :=
  match l !! i with
  | Some x => Returned x
  | None => Panicked IndexOutOfRange
  end.

(** a.Quo(b): the division panics on a zero divisor; the rounded quotient
    is then checked against the maximal bit length. *)
Definition quo (a b : Dec) : outcome Dec :=
  match Dec.Quo a b with
  | Some q =>
      if (Dec.maxDecBitLen <? Dec.BitLen q)%Z then Panicked IntOverflow
      else Returned q
  | None => Panicked DivisionByZero
  end.

(** The two GraphQL queries. *)
Definition dquote : string := String (ascii_of_nat 34) EmptyString.

Definition tokenQuery : AstroportQuery :=
  AstroportQuery.mk
    ("query { tokens(chains: " +:+ dquote +:+ "phoenix-1" +:+ dquote +:+
     ") { priceUsd symbol tokenAddr } }").

Definition poolQuery : AstroportQuery :=
  AstroportQuery.mk
    ("query { pools(chains: " +:+ dquote +:+ "phoenix-1" +:+ dquote +:+
     ") { poolLiquidityUsd dayVolumeUsd assets { symbol address amount } } }").

Definition whitelist : gmap string string :=
  {[ "USDC" := "ibc/b3504e092456ba618cc28ac671a71fb08c6ca0fd0be7c8a5b5a3e2dd933cc9e4";
     "LUNA" := "uluna" ]}%string.

(** The token loop: a record whose symbol is in the whitelist under another
    address is passed over, every other record is stored under its address. *)
Definition skipToken (token : AstroportToken) : bool :=
  match whitelist !! AstroportToken.Symbol token with
  | Some address => bool_decide (AstroportToken.Address token ≠ address)
  | None => false
  end.

Definition admitToken (tokens : gmap string AstroportToken)
    (token : AstroportToken) : gmap string AstroportToken :=
  if skipToken token then tokens
  else <[AstroportToken.Address token := token]> tokens.

Definition buildTokens (l : list AstroportToken) : gmap string AstroportToken :=
  foldl admitToken ∅ l.

Definition pairKey (a b : AstroportAsset) : string :=
  ToUpper (AstroportAsset.Symbol a +:+ AstroportAsset.Symbol b).

Definition getPoolAssets (pairs : gmap string CurrencyPair) (pool : AstroportPool)
  : outcome (AstroportAsset * AstroportAsset * bool) :=
  a1 ←! index (AstroportPool.Assets pool) 0;
  a2 ←! index (AstroportPool.Assets pool) 1;
  if bool_decide (is_Some (pairs !! pairKey a1 a2)) then Returned (a1, a2, true)
  else if bool_decide (is_Some (pairs !! pairKey a2 a1)) then Returned (a2, a1, true)
  else Returned (AstroportAsset.empty, AstroportAsset.empty, false).

Definition liquidityFloor : float := 100000%float.

Section Poll.
(** What Poll calls and this file does not hold: the JSON codec, the HTTP
    transport, the float-to-decimal conversion and the clock. *)
Variable jsonMarshal : AstroportQuery → error + string.
Variable httpPost : string → string → error + string.
Variable unmarshalTokens : string → error + AstroportTokensResponse.
Variable unmarshalPools : string → error + AstroportPoolsResponse.
Variable floatToDec : float → Dec.
Variable now : Z.

(** The body of the pool loop; [continue] returns the map as it is. *)
Definition pollPool (pairs : gmap string CurrencyPair)
    (tokens : gmap string AstroportToken) (timestamp : Z)
    (tickers : gmap string TickerPrice) (pool : AstroportPool)
  : outcome (gmap string TickerPrice) :=
  if (AstroportPool.Liquidity pool <? liquidityFloor)%float then Returned tickers
  else
    r ←! getPoolAssets pairs pool;
    let '(poolAsset1, poolAsset2, ok) := r in
    if negb ok then Returned tickers
    else
      match tokens !! ToLower (AstroportAsset.Address poolAsset1) with
      | None => Returned tickers
      | Some token1 =>
          match tokens !! ToLower (AstroportAsset.Address poolAsset2) with
          | None => Returned tickers
          | Some token2 =>
              let symbol := pairKey poolAsset1 poolAsset2 in
              let price1 := floatToDec (AstroportToken.Price token1) in
              let price2 := floatToDec (AstroportToken.Price token2) in
              price ←! quo price1 price2;
              volume ←! quo (floatToDec (AstroportPool.Volume pool)) price1;
              Returned (<[symbol := TickerPrice.mk price volume timestamp]> tickers)
          end
      end.

Fixpoint pollPools (pairs : gmap string CurrencyPair)
    (tokens : gmap string AstroportToken) (timestamp : Z)
    (tickers : gmap string TickerPrice) (pools : list AstroportPool)
  : outcome (gmap string TickerPrice) :=
  match pools with
  | [] => Returned tickers
  | pool :: rest =>
      tickers' ←! pollPool pairs tokens timestamp tickers pool;
      pollPools pairs tokens timestamp tickers' rest
  end.

Definition pollURL (p : AstroportProvider) : string :=
  Endpoint.Rest (provider.endpoints p) +:+ "/graphql".

(** Poll returns its error (or nil) together with the provider it leaves.
    The reply printed to the standard output on a transport error is not
    part of the state. *)
Definition Poll (p : AstroportProvider)
  : outcome (option error * AstroportProvider) :=
  let url := pollURL p in
  match jsonMarshal tokenQuery with
  | inl err => Returned (Some err, p)
  | inr data =>
  match httpPost url data with
  | inl err => Returned (Some err, p)
  | inr content =>
  match unmarshalTokens content with
  | inl err => Returned (Some err, p)
  | inr tokensResponse =>
  match jsonMarshal poolQuery with
  | inl err => Returned (Some err, p)
  | inr data =>
  match httpPost url data with
  | inl err => Returned (Some err, p)
  | inr content =>
  match unmarshalPools content with
  | inl err => Returned (Some err, p)
  | inr poolsResponse =>
      let tokens :=
        buildTokens (AstroportTokensData.Tokens
                       (AstroportTokensResponse.Data tokensResponse)) in
      let timestamp := now in
      tickers ←! pollPools (provider.pairs p) tokens timestamp
                   (provider.tickers p)
                   (AstroportPoolsData.Pools
                      (AstroportPoolsResponse.Data poolsResponse));
      Returned (None, provider.setTickers p tickers)
  end end end end end end.

(** A transport step (httpPost) or a decoding step (json.Unmarshal) of the
    cycle fails. *)
Inductive fetchFails (p : AstroportProvider) : Prop :=
| tokens_transport_fails data err :
    jsonMarshal tokenQuery = inr data →
    httpPost (pollURL p) data = inl err → fetchFails p
| tokens_decode_fails data content err :
    jsonMarshal tokenQuery = inr data →
    httpPost (pollURL p) data = inr content →
    unmarshalTokens content = inl err → fetchFails p
| pools_transport_fails data err :
    jsonMarshal poolQuery = inr data →
    httpPost (pollURL p) data = inl err → fetchFails p
| pools_decode_fails data content err :
    jsonMarshal poolQuery = inr data →
    httpPost (pollURL p) data = inr content →
    unmarshalPools content = inl err → fetchFails p.

(** Both fetches succeed and decode to these replies. *)
Definition fetched (p : AstroportProvider)
    (tokensResponse : AstroportTokensResponse)
    (poolsResponse : AstroportPoolsResponse) : Prop :=
  ∃ data1 content1 data2 content2,
    jsonMarshal tokenQuery = inr data1
    ∧ httpPost (pollURL p) data1 = inr content1
    ∧ unmarshalTokens content1 = inr tokensResponse
    ∧ jsonMarshal poolQuery = inr data2
    ∧ httpPost (pollURL p) data2 = inr content2
    ∧ unmarshalPools content2 = inr poolsResponse.
End Poll.

Definition tokensOf (r : AstroportTokensResponse) : list AstroportToken :=
  AstroportTokensData.Tokens (AstroportTokensResponse.Data r).

Definition poolsOf (r : AstroportPoolsResponse) : list AstroportPool :=
  AstroportPoolsData.Pools (AstroportPoolsResponse.Data r).

(** The reading of the allow-list under which a pool is skipped as soon as
    one of its assets sits at the address of a token record that the
    allow-list turned away. *)
Definition spoofed_asset_pool_skipped : Prop :=
  ∀ (floatToDec : float → Dec) (pairs : gmap string CurrencyPair)
    (tokensList : list AstroportToken) (timestamp : Z)
    (tickers : gmap string TickerPrice) (pool : AstroportPool)
    (t : AstroportToken) (a : AstroportAsset),
    t ∈ tokensList →
    (∃ address, whitelist !! AstroportToken.Symbol t = Some address
                ∧ AstroportToken.Address t ≠ address) →
    a ∈ AstroportPool.Assets pool →
    AstroportAsset.Address a = AstroportToken.Address t →
    pollPool floatToDec pairs (buildTokens tokensList) timestamp tickers pool
    = Returned tickers.

(** ** Sample runs of the provider

    One admissible conversion for the missing [floatToDec]: the exact value
    of the float, cut after 18 fractional digits (zero for NaN and the
    infinities).  The theorems below hold for every conversion; this one
    serves to run [Poll] on concrete replies. *)
Definition floatToDecTrunc (f : float) : Dec :=
  match Prim2SF f with
  | S754_finite s m e =>
      let n := (Z.pos m * Dec.precisionReuse)%Z in
      let v := (if 0 <=? e then n * 2 ^ e else n / 2 ^ (- e))%Z in
      Dec.mk (if s then (- v)%Z else v)
  | _ => Dec.zero
  end.

(** A transport that answers the token query with [tokensReply] and any
    other body with [poolsReply]; replies are decoded by table. *)
Definition sampleMarshal (q : AstroportQuery) : error + string :=
  inr (AstroportQuery.Query q).

Definition samplePost (tokensReply poolsReply : error + string)
    (url body : string) : error + string :=
  if bool_decide (body = AstroportQuery.Query tokenQuery) then tokensReply
  else poolsReply.

Definition sampleUnmarshalTokens (tokens : list AstroportToken)
    (content : string) : error + AstroportTokensResponse :=
  if bool_decide (content = "tokens"%string)
  then inr (AstroportTokensResponse.mk (AstroportTokensData.mk tokens))
  else inl "invalid character"%string.

Definition sampleUnmarshalPools (pools : list AstroportPool)
    (content : string) : error + AstroportPoolsResponse :=
  if bool_decide (content = "pools"%string)
  then inr (AstroportPoolsResponse.mk (AstroportPoolsData.mk pools))
  else inl "invalid character"%string.

Definition usdcAddress : string :=
  "ibc/b3504e092456ba618cc28ac671a71fb08c6ca0fd0be7c8a5b5a3e2dd933cc9e4".

Definition lunaToken : AstroportToken :=
  AstroportToken.mk "uluna" "LUNA" 0.5%float 6%float.
Definition usdcToken : AstroportToken :=
  AstroportToken.mk usdcAddress "USDC" 1%float 6%float.
Definition freeUsdcToken : AstroportToken :=
  AstroportToken.mk usdcAddress "USDC" 0%float 6%float.
(** A record that claims the symbol LUNA from another contract. *)
Definition spoofedLuna : AstroportToken :=
  AstroportToken.mk "terra1spoof" "LUNA" 2%float 6%float.
(** A second record of the same contract under a symbol of its own. *)
Definition spoofAlias : AstroportToken :=
  AstroportToken.mk "terra1spoof" "MOON" 2%float 6%float.


Definition lunaAsset : AstroportAsset := AstroportAsset.mk "uluna" "1000" "LUNA".
Definition usdcAsset : AstroportAsset :=
  AstroportAsset.mk "ibc/B3504E092456BA618CC28AC671A71FB08C6CA0FD0BE7C8A5B5A3E2DD933CC9E4"
    "1000" "USDC".
Definition spoofAsset : AstroportAsset :=
  AstroportAsset.mk "terra1spoof" "1000" "LUNA".


Definition lunaUsdcPool : AstroportPool :=
  AstroportPool.mk 3000%float [lunaAsset; usdcAsset] 250000%float.
Definition thinPool : AstroportPool :=
  AstroportPool.mk 3000%float [lunaAsset; usdcAsset] 99999.5%float.
Definition oneAssetPool : AstroportPool :=
  AstroportPool.mk 3000%float [lunaAsset] 250000%float.
Definition spoofPool : AstroportPool :=
  AstroportPool.mk 3000%float [spoofAsset; usdcAsset] 250000%float.

Definition samplePairs : gmap string CurrencyPair :=
  {[ "LUNAUSDC" := CurrencyPair.mk "LUNA" "USDC" ]}%string.

Definition staleTickers : gmap string TickerPrice :=
  {[ "LUNAUSDC" := TickerPrice.mk (Dec.ofDigits 7 1) (Dec.ofDigits 12 0) 41 ]}%string.

Definition sampleProvider : AstroportProvider :=
  provider.mk (Endpoint.mk "astroport" "https://develop-multichain-api.astroport.fi" 10)
    samplePairs staleTickers.

(** Poll against a venue that serves [tokens] and [pools], at time 42. *)
Definition samplePoll (tokensReply poolsReply : error + string)
    (tokens : list AstroportToken) (pools : list AstroportPool)
  : outcome (option error * AstroportProvider) :=
  Poll sampleMarshal (samplePost tokensReply poolsReply)
    (sampleUnmarshalTokens tokens) (sampleUnmarshalPools pools)
    floatToDecTrunc 42 sampleProvider.

(** The writes of one cycle, replayed in order on a store. *)
Definition applyWrites (tickers : gmap string TickerPrice)
    (writes : list (string * TickerPrice)) : gmap string TickerPrice :=
  foldl (λ m kv, <[kv.1 := kv.2]> m) tickers writes.

(** More sample data: a pool that lists the quote asset first, a pool of an
    unconfigured pair and a pool with a third asset. *)
Definition astroAsset : AstroportAsset := AstroportAsset.mk "terra1astro" "1000" "astro".
Definition reversedPool : AstroportPool :=
  AstroportPool.mk 3000%float [usdcAsset; lunaAsset] 250000%float.
Definition astroPool : AstroportPool :=
  AstroportPool.mk 3000%float [astroAsset; usdcAsset] 250000%float.
Definition threeAssetPool : AstroportPool :=
  AstroportPool.mk 3000%float [lunaAsset; usdcAsset; astroAsset] 250000%float.
Definition lowerCasePairs : gmap string CurrencyPair :=
  {[ "lunausdc" := CurrencyPair.mk "luna" "usdc" ]}%string.

(** The store after one cycle on the LUNA/USDC pool, and Poll from any
    provider against a venue that answers both queries. *)
Definition freshTickers : gmap string TickerPrice :=
  <["LUNAUSDC"%string := TickerPrice.mk (Dec.ofDigits 5 1) (Dec.ofDigits 6000 0) 42]>
    staleTickers.

Definition samplePollFrom (tokens : list AstroportToken)
    (pools : list AstroportPool) (p : AstroportProvider)
  : outcome (option error * AstroportProvider) :=
  Poll sampleMarshal (samplePost (inr "tokens"%string) (inr "pools"%string))
    (sampleUnmarshalTokens tokens) (sampleUnmarshalPools pools)
    floatToDecTrunc 42 p.

(** The store after a cycle that prices the pool at the spoofed address:
    2 for LUNA/USDC, from the record listed under the other symbol. *)
Definition spoofedTickers : gmap string TickerPrice :=
  <["LUNAUSDC"%string := TickerPrice.mk (Dec.ofDigits 2 0) (Dec.ofDigits 1500 0) 42]>
    staleTickers.

(** * Properties *)

(** ** Decimal arithmetic *)

Lemma Dec_Add_comm a b : Dec.Add a b = Dec.Add b a.
Proof. unfold Dec.Add. f_equal. lia. Qed.

Lemma Dec_Add_assoc a b c : Dec.Add a (Dec.Add b c) = Dec.Add (Dec.Add a b) c.
Proof. unfold Dec.Add. simpl. f_equal. lia. Qed.

Lemma Dec_Quo_None a b : Dec.Quo a b = None ↔ Dec.raw b = 0%Z.
Proof.
  unfold Dec.Quo. destruct (Z.eqb_spec (Dec.raw b) 0); split; intros; congruence.
Qed.

Lemma Dec_Quo_is_Some a b : Dec.raw b ≠ 0%Z → is_Some (Dec.Quo a b).
Proof.
  intros Hb. destruct (Dec.Quo a b) eqn:E; [eauto |].
  apply Dec_Quo_None in E. contradiction.
Qed.

(** Rounding away 18 digits leaves at most the truncated quotient plus one. *)
Lemma chopAbs_bound d :
  (0 ≤ d → 0 ≤ Dec.chopAbs d ≤ d / Dec.precisionReuse + 1)%Z.
Proof.
  intros Hd. unfold Dec.chopAbs.
  assert (0 ≤ d / Dec.precisionReuse)%Z by (apply Z.div_pos; [done | reflexivity]).
  destruct (_ =? 0)%Z; [lia |].
  destruct (_ ?= _)%Z; [destruct (Z.even _) | |]; lia.
Qed.

Lemma chopPrecisionAndRound_bound d :
  (Z.abs (Dec.chopPrecisionAndRound d) ≤ Z.abs d / Dec.precisionReuse + 1)%Z.
Proof.
  unfold Dec.chopPrecisionAndRound. destruct (Z.ltb_spec d 0).
  - pose proof (chopAbs_bound (- d) ltac:(lia)).
    rewrite Z.abs_opp, (Z.abs_eq (Dec.chopAbs _)), (Z.abs_neq d) by lia. lia.
  - pose proof (chopAbs_bound d ltac:(lia)).
    rewrite (Z.abs_eq (Dec.chopAbs _)), (Z.abs_eq d) by lia. lia.
Qed.

Lemma BitLen_le_max d :
  (Z.abs (Dec.raw d) < 2 ^ Dec.maxDecBitLen)%Z →
  (Dec.maxDecBitLen <? Dec.BitLen d)%Z = false.
Proof.
  intros Hd. apply Z.ltb_ge. unfold Dec.BitLen.
  destruct (Z.eqb_spec (Dec.raw d) 0); [done |].
  assert (Z.log2 (Z.abs (Dec.raw d)) < Dec.maxDecBitLen)%Z; [| lia].
  apply Z.log2_lt_pow2; lia.
Qed.

(** A numerator below 2^255 in absolute value cannot overflow a quotient:
    the quotient by a non-zero decimal fits the maximal bit length. *)
Lemma Dec_Quo_fits a b q :
  (Z.abs (Dec.raw a) < 2 ^ 255)%Z →
  Dec.Quo a b = Some q →
  (Dec.maxDecBitLen <? Dec.BitLen q)%Z = false.
Proof.
  intros Ha Hq. apply BitLen_le_max.
  unfold Dec.Quo in Hq. destruct (Z.eqb_spec (Dec.raw b) 0) as [|Hb]; [done |].
  injection Hq as <-. simpl.
  set (n := (Dec.raw a * Dec.precisionReuse * Dec.precisionReuse)%Z).
  pose proof (chopPrecisionAndRound_bound (Z.quot n (Dec.raw b))) as Hchop.
  assert (Hquot : (Z.abs (Z.quot n (Dec.raw b)) ≤ Z.abs n)%Z).
  { rewrite <- Z.quot_abs by done.
    rewrite Z.quot_div_nonneg by lia.
    apply Z.div_le_upper_bound; nia. }
  assert (Hn : (Z.abs n = Z.abs (Dec.raw a) * Dec.precisionReuse * Dec.precisionReuse)%Z).
  { subst n. rewrite !Z.abs_mul. reflexivity. }
  assert (Hdiv : (Z.abs (Z.quot n (Dec.raw b)) / Dec.precisionReuse
                  ≤ Z.abs (Dec.raw a) * Dec.precisionReuse)%Z).
  { etrans; [apply Z.div_le_mono; [reflexivity | exact Hquot] |].
    rewrite Hn, Z.div_mul by discriminate. done. }
  change Dec.precisionReuse with 1000000000000000000%Z in *.
  change (2 ^ Dec.maxDecBitLen)%Z
    with 66749594872528440074844428317798503581334516323645399060845050244444366430645017188217565216768%Z.
  change (2 ^ 255)%Z
    with 57896044618658097711785492504343953926634992332820282019728792003956564819968%Z
    in Ha.
  lia.
Qed.

Lemma quo_zero_divisor a : quo a Dec.zero = Panicked DivisionByZero.
Proof. reflexivity. Qed.

Lemma quo_zero_numerator b :
  quo Dec.zero b = Returned Dec.zero ∨ quo Dec.zero b = Panicked DivisionByZero.
Proof.
  unfold quo, Dec.Quo. destruct (Z.eqb_spec (Dec.raw b) 0) as [|Hb]; [by right |].
  left. simpl. by rewrite Z.quot_0_l.
Qed.

Lemma quo_returns a b :
  Dec.raw b ≠ 0%Z → (Z.abs (Dec.raw a) < 2 ^ 255)%Z →
  ∃ q, Dec.Quo a b = Some q ∧ quo a b = Returned q.
Proof.
  intros Hb Ha. destruct (Dec_Quo_is_Some a b Hb) as [q Hq].
  exists q. split; [done |]. unfold quo. by rewrite Hq, (Dec_Quo_fits a b q Ha Hq).
Qed.

(** The divisor of a Newton step is never zero, so the iteration runs to its
    end: the square root has no failing path. *)
Lemma approxSqrtLoop_is_Some iter : ∀ d guess delta,
  is_Some (Dec.approxSqrtLoop d guess delta iter).
Proof.
  induction iter as [|iter IH]; intros d guess delta; simpl; [eauto |].
  destruct (Dec.GT (Dec.Abs delta) Dec.smallest); [| eauto].
  set (prev := if Dec.IsZero _ then _ else _).
  assert (Hprev : Dec.raw prev ≠ 0%Z).
  { subst prev. unfold Dec.IsZero.
    destruct (Z.eqb_spec (Dec.raw (Dec.Mul guess Dec.one)) 0) as [E|E];
      [discriminate | exact E]. }
  destruct (Dec_Quo_is_Some d prev Hprev) as [q ->]. apply IH.
Qed.

Lemma ApproxSqrt_is_Some d : is_Some (Dec.ApproxSqrt d).
Proof.
  unfold Dec.ApproxSqrt.
  destruct (Dec.IsNegative d).
  - destruct (_ || _); [eauto |].
    destruct (approxSqrtLoop_is_Some Dec.maxApproxRootIterations
                (Dec.Neg d) Dec.one Dec.one) as [r ->].
    simpl. eauto.
  - destruct (_ || _); [eauto |]. apply approxSqrtLoop_is_Some.
Qed.

Lemma sumDec_Permutation l l' : l ≡ₚ l' → sumDec l = sumDec l'.
Proof.
  induction 1 as [| x l l' _ IH | x y l | l l' l'' _ IH1 _ IH2]; simpl.
  - reflexivity.
  - by rewrite IH.
  - rewrite !Dec_Add_assoc. f_equal. apply Dec_Add_comm.
  - congruence.
Qed.

(** ** ComputeVWAP *)

(** C3: on the three ATOM observations of the package's test
    ({28.21, 2749102.78}, {28.2687, 178277.53314385},
    {28.1687, 4749102.53314385}) ComputeVWAP returns no error and the
    decimal 28.185812745610043621, which is Σ(price × volume) / Σ(volume). *)
Theorem ComputeVWAP_atom :
  ComputeVWAP atomTickers = inr (Dec.ofDigits 28185812745610043621 18)
  ∧ Dec.Quo (sumDec ((λ tp, Dec.Mul (TickerPrice.Price tp) (TickerPrice.Volume tp))
                       <$> atomTickers))
            (sumDec (TickerPrice.Volume <$> atomTickers))
    = Some (Dec.ofDigits 28185812745610043621 18).
Proof. split; vm_compute; reflexivity. Qed.

(** The other two expectations of TestComputeVWAP. *)
Example ComputeVWAP_umee :
  ComputeVWAP [TickerPrice.mk (Dec.ofDigits 113 2) (Dec.ofDigits 24910238 2) 0]
  = inr (Dec.ofDigits 113 2).
Proof. vm_compute. reflexivity. Qed.

Example ComputeVWAP_luna :
  ComputeVWAP [TickerPrice.mk (Dec.ofDigits 6487 2) (Dec.ofDigits 785493469 2) 0;
               TickerPrice.mk (Dec.ofDigits 6487853 5)
                 (Dec.ofDigits 45891746353577 8) 0]
  = inr (Dec.ofDigits 64870470848638112395 18).
Proof. vm_compute. reflexivity. Qed.

Example ComputeVWAP_empty : ComputeVWAP [] = inl "no tickers supplied"%string.
Proof. reflexivity. Qed.

(** C7: ComputeVWAP gives the same result, value or error, on every
    permutation of its input. *)
Theorem ComputeVWAP_Permutation (tickers tickers' : list TickerPrice) :
  tickers ≡ₚ tickers' → ComputeVWAP tickers = ComputeVWAP tickers'.
Proof.
  intros Hperm. unfold ComputeVWAP.
  destruct tickers as [|t ts], tickers' as [|t' ts'].
  - reflexivity.
  - by apply Permutation_nil_cons in Hperm.
  - symmetry in Hperm. by apply Permutation_nil_cons in Hperm.
  - rewrite (sumDec_Permutation _ _ (fmap_Permutation _ _ _ Hperm)).
    rewrite (sumDec_Permutation _ _ (fmap_Permutation TickerPrice.Volume _ _ Hperm)).
    reflexivity.
Qed.

Lemma ComputeVWAP_Permutation_witness :
  atomTickers ≡ₚ reverse atomTickers
  ∧ ComputeVWAP atomTickers = ComputeVWAP (reverse atomTickers).
Proof.
  assert (H : atomTickers ≡ₚ reverse atomTickers)
    by (symmetry; apply reverse_Permutation).
  split; [exact H | exact (ComputeVWAP_Permutation _ _ H)].
Defined.

(** ** StandardDeviation *)

Section Consensus.
Implicit Types (prices : gmap string (gmap string Dec)) (base : string).

Lemma length_omap_filter {A B} (f : A → option B) (l : list A) :
  length (omap f l) = length (filter (λ x, is_Some (f x)) l).
Proof.
  induction l as [|x l IH]; [reflexivity |]. cbn [omap list_omap].
  rewrite filter_cons. destruct (f x) eqn:E.
  - rewrite decide_True by eauto. simpl. by rewrite IH.
  - rewrite decide_False by (intros [? ?]; congruence). exact IH.
Qed.

(** One price per reporting venue. *)
Lemma length_pricesFor prices base :
  length (pricesFor prices base) = reportingVenues prices base.
Proof.
  unfold pricesFor, reportingVenues.
  rewrite length_omap_filter, <- length_map_to_list, map_filter_alt.
  symmetry. apply Permutation_length, map_to_list_to_map.
  apply (NoDup_fmap_2_strong fst).
  - intros [k1 v1] [k2 v2] [_ H1]%list_elem_of_filter [_ H2]%list_elem_of_filter Hk.
    simpl in Hk. subst k2. f_equal.
    apply elem_of_map_to_list in H1, H2. congruence.
  - apply NoDup_filter, NoDup_map_to_list.
Qed.

Lemma elem_of_allPairs prices base :
  base ∈ allPairs prices ↔ pricesFor prices base ≠ [].
Proof.
  unfold allPairs, pricesFor. rewrite elem_of_union_list. split.
  - intros (X & (vp & -> & Hvp)%list_elem_of_fmap & [p Hp]%elem_of_dom) Hnil.
    assert (Hin : p ∈ omap (λ vp, vp.2 !! base) (map_to_list prices))
      by (apply list_elem_of_omap; eauto).
    rewrite Hnil in Hin. by apply elem_of_nil in Hin.
  - intros Hne.
    destruct (omap (λ vp, vp.2 !! base) (map_to_list prices)) as [|p ps] eqn:E;
      [done |].
    assert (Hin : p ∈ omap (λ vp, vp.2 !! base) (map_to_list prices))
      by (rewrite E; left).
    apply list_elem_of_omap in Hin as (vp & Hvp & Hp).
    exists (dom vp.2). split.
    + apply list_elem_of_fmap. eauto.
    + apply elem_of_dom. eauto.
Qed.

Lemma priceSlice_lookup_Some prices base l :
  priceSlice prices !! base = Some l ↔ l = pricesFor prices base ∧ l ≠ [].
Proof.
  unfold priceSlice. rewrite lookup_set_to_map by (simpl; auto). split.
  - intros (b & Hb & [= -> <-]). split; [done | by apply elem_of_allPairs].
  - intros [-> Hne]. exists base. split; [by apply elem_of_allPairs | done].
Qed.

Lemma hasQuorum_nonempty l : hasQuorum l = true → l ≠ [].
Proof.
  unfold hasQuorum, minQuorum. intros H%bool_decide_eq_true ->. simpl in H. lia.
Qed.

(** The pairs that pass the quorum filter, with their prices. *)
Lemma quorum_lookup prices base :
  filter (λ bl, hasQuorum bl.2 = true) (priceSlice prices) !! base
  = if hasQuorum (pricesFor prices base) then Some (pricesFor prices base)
    else None.
Proof.
  destruct (hasQuorum (pricesFor prices base)) eqn:Hq.
  - apply map_lookup_filter_Some. split; [| done].
    apply priceSlice_lookup_Some. split; [done | by apply hasQuorum_nonempty].
  - apply map_lookup_filter_None. right. intros l Hl Hq'. simpl in Hq'.
    apply priceSlice_lookup_Some in Hl as [-> _]. congruence.
Qed.

(** StandardDeviation never fails, and its two maps are given pair by pair
    by the quorum test on the prices reported for the pair. *)
Lemma StandardDeviation_lookup prices :
  ∃ deviations means,
    StandardDeviation prices = inr (deviations, means)
    ∧ ∀ base,
        means !! base
        = (if hasQuorum (pricesFor prices base)
           then Some (mean (pricesFor prices base)) else None)
        ∧ deviations !! base
          = (if hasQuorum (pricesFor prices base)
             then Dec.ApproxSqrt (variance (pricesFor prices base)) else None).
Proof.
  unfold StandardDeviation.
  set (quorum := filter _ (priceSlice prices)).
  rewrite decide_True.
  2:{ intros base r. rewrite lookup_fmap.
      destruct (quorum !! base); simpl; intros [= <-]. apply ApproxSqrt_is_Some. }
  eexists _, _. split; [reflexivity |]. intros base.
  rewrite lookup_fmap, lookup_omap, lookup_fmap. subst quorum.
  rewrite quorum_lookup.
  destruct (hasQuorum (pricesFor prices base)); simpl; [| done].
  split; [done |]. by destruct (Dec.ApproxSqrt _).
Qed.

Lemma hasQuorum_reporting prices base :
  hasQuorum (pricesFor prices base) = bool_decide (3 ≤ reportingVenues prices base).
Proof. unfold hasQuorum, minQuorum. by rewrite length_pricesFor. Qed.

Lemma reportingVenues_le_size prices base :
  reportingVenues prices base ≤ size prices.
Proof.
  rewrite <- length_pricesFor. unfold pricesFor.
  rewrite length_omap_filter, <- length_map_to_list. apply length_filter.
Qed.

Lemma mean_Permutation l l' : l ≡ₚ l' → mean l = mean l'.
Proof.
  intros H. unfold mean, numPrices.
  by rewrite (sumDec_Permutation _ _ H), (Permutation_length H).
Qed.

Lemma variance_Permutation l l' : l ≡ₚ l' → variance l = variance l'.
Proof.
  intros H. unfold variance, numPrices.
  rewrite (mean_Permutation _ _ H), (Permutation_length H).
  f_equal. apply sumDec_Permutation. by apply fmap_Permutation.
Qed.
End Consensus.

(** C1: StandardDeviation returns no error, and a pair has an entry in the
    means and in the deviations exactly when at least 3 distinct venues
    report it; a pair with fewer venues is absent from both maps.  With
    fewer than 3 venues in the input both maps are empty. *)
Theorem StandardDeviation_quorum (prices : gmap string (gmap string Dec)) :
  ∃ deviations means,
    StandardDeviation prices = inr (deviations, means)
    ∧ (∀ base,
         (is_Some (means !! base) ↔ 3 ≤ reportingVenues prices base)
         ∧ (is_Some (deviations !! base) ↔ 3 ≤ reportingVenues prices base)
         ∧ (reportingVenues prices base < 3 →
            means !! base = None ∧ deviations !! base = None))
    ∧ (size prices < 3 → deviations = ∅ ∧ means = ∅).
Proof.
  destruct (StandardDeviation_lookup prices) as (deviations & means & Heq & Hlk).
  exists deviations, means. split; [exact Heq |].
  assert (Hbase : ∀ base,
    (is_Some (means !! base) ↔ 3 ≤ reportingVenues prices base)
    ∧ (is_Some (deviations !! base) ↔ 3 ≤ reportingVenues prices base)
    ∧ (reportingVenues prices base < 3 →
       means !! base = None ∧ deviations !! base = None)).
  { intros base. destruct (Hlk base) as [-> ->].
    rewrite hasQuorum_reporting. case_bool_decide as Hq.
    - destruct (ApproxSqrt_is_Some (variance (pricesFor prices base))) as [r ->].
      repeat split; eauto; lia.
    - repeat split; try (intros [? ?]; congruence); try (intros; lia). }
  split; [exact Hbase |].
  intros Hsize.
  assert (Hfew : ∀ base, reportingVenues prices base < 3).
  { intros base. pose proof (reportingVenues_le_size prices base). lia. }
  split; apply map_empty; intros base;
    destruct (Hbase base) as (_ & _ & Hnone); by apply Hnone.
Qed.

Lemma StandardDeviation_quorum_witness :
  size notEnoughPrices < 3
  ∧ reportingVenues notEnoughPrices "ATOM" < 3
  ∧ StandardDeviation notEnoughPrices = inr (∅, ∅).
Proof.
  assert (Hsize : size notEnoughPrices < 3) by (vm_compute; lia).
  split; [exact Hsize |]. split; [vm_compute; lia |].
  destruct (StandardDeviation_quorum notEnoughPrices)
    as (deviations & means & Heq & _ & Hempty).
  destruct (Hempty Hsize) as [-> ->]. exact Heq.
Defined.

(** C4: when exactly three venues report a pair, at 28.21, 28.23 and 28.40,
    StandardDeviation returns the mean 28.28 and the deviation
    0.085244745683629475 for it; the deviation is the root of the sum of
    squared distances divided by 3, and dividing by 2 gives another number. *)
Theorem StandardDeviation_three_venues
    (prices : gmap string (gmap string Dec)) (base : string) :
  pricesFor prices base ≡ₚ atomPrices →
  ∃ deviations means,
    StandardDeviation prices = inr (deviations, means)
    ∧ reportingVenues prices base = 3
    ∧ means !! base = Some (Dec.ofDigits 2828 2)
    ∧ deviations !! base = Some (Dec.ofDigits 85244745683629475 18)
    ∧ (let squares :=
         (λ p, Dec.Mul (Dec.Sub p (Dec.ofDigits 2828 2))
                       (Dec.Sub p (Dec.ofDigits 2828 2))) <$> atomPrices in
       Dec.ApproxSqrt (Dec.QuoInt64 (sumDec squares) 3)
       = Some (Dec.ofDigits 85244745683629475 18)
       ∧ Dec.ApproxSqrt (Dec.QuoInt64 (sumDec squares) 2)
         ≠ Some (Dec.ofDigits 85244745683629475 18)).
Proof.
  intros Hperm.
  destruct (StandardDeviation_lookup prices) as (deviations & means & Heq & Hlk).
  exists deviations, means. split; [exact Heq |].
  split; [by rewrite <- length_pricesFor, (Permutation_length Hperm) |].
  destruct (Hlk base) as [-> ->].
  assert (Hq : hasQuorum (pricesFor prices base) = true).
  { unfold hasQuorum. by rewrite (Permutation_length Hperm). }
  rewrite Hq, (mean_Permutation _ _ Hperm), (variance_Permutation _ _ Hperm).
  repeat split; try (vm_compute; reflexivity).
  vm_compute. discriminate.
Qed.

Lemma StandardDeviation_three_venues_witness :
  pricesFor somePrices "ATOM" ≡ₚ atomPrices
  ∧ ∃ deviations means,
      StandardDeviation somePrices = inr (deviations, means)
      ∧ means !! "ATOM"%string = Some (Dec.ofDigits 2828 2)
      ∧ deviations !! "ATOM"%string = Some (Dec.ofDigits 85244745683629475 18).
Proof.
  assert (Hperm : pricesFor somePrices "ATOM" ≡ₚ atomPrices).
  { apply (bool_decide_unpack _). vm_compute. exact I. }
  split; [exact Hperm |].
  destruct (StandardDeviation_three_venues somePrices "ATOM" Hperm)
    as (deviations & means & Heq & _ & Hm & Hd & _).
  exists deviations, means. auto.
Defined.

(** The cases of TestStandardDeviation. *)
Example StandardDeviation_empty : StandardDeviation ∅ = inr (∅, ∅).
Proof. vm_compute. reflexivity. Qed.

Example StandardDeviation_notEnoughPrices :
  StandardDeviation notEnoughPrices = inr (∅, ∅).
Proof. vm_compute. reflexivity. Qed.

Example StandardDeviation_somePrices :
  StandardDeviation somePrices
  = inr ({[ "ATOM" := Dec.ofDigits 85244745683629475 18;
            "UMEE" := Dec.ofDigits 4600724580614015 18 ]},
         {[ "ATOM" := Dec.ofDigits 2828 2;
            "UMEE" := Dec.ofDigits 11335 4 ]})%string.
Proof. vm_compute. reflexivity. Qed.

Example StandardDeviation_nonEmptyPrices :
  StandardDeviation nonEmptyPrices
  = inr ({[ "ATOM" := Dec.ofDigits 85244745683629475 18;
            "UMEE" := Dec.ofDigits 4600724580614015 18;
            "LUNA" := Dec.ofDigits 358360464089193609 18 ]},
         {[ "ATOM" := Dec.ofDigits 2828 2;
            "UMEE" := Dec.ofDigits 11335 4;
            "LUNA" := Dec.ofDigits 64606666666666666666 18 ]})%string.
Proof. vm_compute. reflexivity. Qed.

(** ** Strings *)




(** ** The liquidity floor *)

Lemma SFcompare_antisym a b c :
  SFcompare a b = Some c → SFcompare b a = Some (CompOpp c).
Proof.
  destruct a as [sa|sa| |sa ma ea], b as [sb|sb| |sb mb eb]; simpl;
    try discriminate;
    try (destruct sa; intros [= <-]; reflexivity);
    try (destruct sb; intros [= <-]; reflexivity);
    try (destruct sa, sb; intros [= <-]; reflexivity).
  change (Pos.compare_cont Eq ma mb) with (ma ?= mb)%positive.
  change (Pos.compare_cont Eq mb ma) with (mb ?= ma)%positive.
  rewrite (Z.compare_antisym eb ea), (Pos.compare_antisym mb ma).
  destruct sa, sb, (eb ?= ea)%Z, (mb ?= ma)%positive; simpl;
    intros [= <-]; reflexivity.
Qed.

(** A liquidity at or above the floor is not below it, so the guard of the
    pool loop lets the pool through. *)
Lemma at_or_above_not_below (x : float) :
  (liquidityFloor <=? x)%float = true → (x <? liquidityFloor)%float = false.
Proof.
  rewrite leb_spec, ltb_spec. unfold SFleb, SFltb.
  destruct (SFcompare (Prim2SF liquidityFloor) (Prim2SF x)) as [c|] eqn:E;
    [| discriminate].
  rewrite (SFcompare_antisym _ _ _ E). by destruct c.
Qed.

(** ** The token identity mapping *)

Lemma admitToken_skip tokens token :
  skipToken token = true → admitToken tokens token = tokens.
Proof. unfold admitToken. by intros ->. Qed.

Lemma skipToken_true token :
  skipToken token = true
  ↔ ∃ address, whitelist !! AstroportToken.Symbol token = Some address
               ∧ AstroportToken.Address token ≠ address.
Proof.
  unfold skipToken. destruct (whitelist !! AstroportToken.Symbol token) as [addr|].
  - rewrite bool_decide_eq_true. split; [eauto |]. by intros (? & [= <-] & ?).
  - split; [done | by intros (? & ? & _)].
Qed.

Lemma foldl_admitToken_lookup l : ∀ acc k tok,
  foldl admitToken acc l !! k = Some tok →
  acc !! k = Some tok
  ∨ (tok ∈ l ∧ AstroportToken.Address tok = k ∧ skipToken tok = false).
Proof.
  induction l as [|t l IH]; intros acc k tok; simpl; [auto |].
  intros [Hacc | (Hin & Hk & Hs)]%IH.
  - unfold admitToken in Hacc. destruct (skipToken t) eqn:Hskip; [auto |].
    destruct (decide (AstroportToken.Address t = k)) as [<- | Hne].
    + rewrite lookup_insert_eq in Hacc. injection Hacc as <-.
      right. repeat split; [left | done].
    + rewrite lookup_insert_ne in Hacc by done. auto.
  - right. repeat split; [by right | done | done].
Qed.

(** Every entry sits under the address of its record, comes from the reply
    and passed the allow-list. *)
Lemma buildTokens_lookup l k tok :
  buildTokens l !! k = Some tok →
  tok ∈ l ∧ AstroportToken.Address tok = k ∧ skipToken tok = false.
Proof.
  intros [Hempty | H]%foldl_admitToken_lookup; [| exact H].
  by rewrite lookup_empty in Hempty.
Qed.

Lemma buildTokens_lookup_None l k :
  Forall (λ t, AstroportToken.Address t = k → skipToken t = true) l →
  buildTokens l !! k = None.
Proof.
  intros Hall. destruct (buildTokens l !! k) as [tok|] eqn:E; [| done].
  apply buildTokens_lookup in E as (Hin & Hk & Hs).
  rewrite Forall_forall in Hall. rewrite (Hall tok Hin Hk) in Hs. discriminate.
Qed.

(** ** Poll *)

Section PollFacts.
Variable jsonMarshal : AstroportQuery → error + string.
Variable httpPost : string → string → error + string.
Variable unmarshalTokens : string → error + AstroportTokensResponse.
Variable unmarshalPools : string → error + AstroportPoolsResponse.
Variable floatToDec : float → Dec.
Variable now : Z.

Implicit Types (pairs : gmap string CurrencyPair)
  (tokens : gmap string AstroportToken) (tickers : gmap string TickerPrice)
  (pool : AstroportPool) (p : AstroportProvider).

Lemma pollPools_app pairs tokens timestamp pre : ∀ tickers post,
  pollPools floatToDec pairs tokens timestamp tickers (pre ++ post)
  = (tickers' ←! pollPools floatToDec pairs tokens timestamp tickers pre;
     pollPools floatToDec pairs tokens timestamp tickers' post).
Proof.
  induction pre as [|pool pre IH]; intros tickers post; [reflexivity |].
  simpl. destruct (pollPool _ _ _ _ _ pool); simpl; [apply IH | done].
Qed.

(** Once both replies are in, Poll is the pool loop over the token map. *)
Lemma Poll_fetched p tokensResponse poolsResponse :
  fetched jsonMarshal httpPost unmarshalTokens unmarshalPools p
    tokensResponse poolsResponse →
  Poll jsonMarshal httpPost unmarshalTokens unmarshalPools floatToDec now p
  = (tickers ←! pollPools floatToDec (provider.pairs p)
                  (buildTokens (tokensOf tokensResponse)) now
                  (provider.tickers p) (poolsOf poolsResponse);
     Returned (None, provider.setTickers p tickers)).
Proof.
  intros (d1 & c1 & d2 & c2 & H1 & H2 & H3 & H4 & H5 & H6).
  unfold Poll. by rewrite H1, H2, H3, H4, H5, H6.
Qed.

(** A pool that stops the loop stops Poll. *)
Lemma Poll_panics_at p tokensResponse poolsResponse pre pool rest tickers why :
  fetched jsonMarshal httpPost unmarshalTokens unmarshalPools p
    tokensResponse poolsResponse →
  poolsOf poolsResponse = pre ++ pool :: rest →
  pollPools floatToDec (provider.pairs p) (buildTokens (tokensOf tokensResponse)) now
    (provider.tickers p) pre = Returned tickers →
  pollPool floatToDec (provider.pairs p) (buildTokens (tokensOf tokensResponse)) now
    tickers pool = Panicked why →
  Poll jsonMarshal httpPost unmarshalTokens unmarshalPools floatToDec now p = Panicked why.
Proof.
  intros Hf Hpools Hpre Hpool.
  rewrite (Poll_fetched _ _ _ Hf), Hpools, pollPools_app, Hpre. simpl.
  by rewrite Hpool.
Qed.

Lemma pollPool_unknown_address pairs tokens timestamp tickers pool x y :
  AstroportPool.Assets pool !! 0 = Some x →
  AstroportPool.Assets pool !! 1 = Some y →
  tokens !! ToLower (AstroportAsset.Address x) = None
  ∨ tokens !! ToLower (AstroportAsset.Address y) = None →
  pollPool floatToDec pairs tokens timestamp tickers pool = Returned tickers.
Proof.
  intros Hx Hy Hnone. unfold pollPool.
  destruct (_ <? _)%float; [done |].
  unfold getPoolAssets, index. rewrite Hx, Hy. simpl.
  destruct (bool_decide (is_Some (pairs !! pairKey x y))); simpl.
  - destruct Hnone as [-> | Hy']; [done |].
    destruct (tokens !! ToLower (AstroportAsset.Address x)); [| done].
    by rewrite Hy'.
  - destruct (bool_decide (is_Some (pairs !! pairKey y x))); simpl; [| done].
    destruct Hnone as [Hx' | ->].
    + destruct (tokens !! ToLower (AstroportAsset.Address y)); [| done].
      by rewrite Hx'.
    + by destruct (tokens !! ToLower (AstroportAsset.Address y)).
Qed.

Lemma pollPool_zero_price pairs tokens timestamp tickers pool a1 a2 token1 token2 :
  (AstroportPool.Liquidity pool <? liquidityFloor)%float = false →
  getPoolAssets pairs pool = Returned (a1, a2, true) →
  tokens !! ToLower (AstroportAsset.Address a1) = Some token1 →
  tokens !! ToLower (AstroportAsset.Address a2) = Some token2 →
  floatToDec (AstroportToken.Price token1) = Dec.zero
  ∨ floatToDec (AstroportToken.Price token2) = Dec.zero →
  pollPool floatToDec pairs tokens timestamp tickers pool = Panicked DivisionByZero.
Proof.
  intros Hliq Hassets H1 H2 Hzero. unfold pollPool.
  rewrite Hliq, Hassets. simpl. rewrite H1, H2.
  destruct Hzero as [Hz | Hz]; rewrite Hz.
  - destruct (quo_zero_numerator (floatToDec (AstroportToken.Price token2)))
      as [-> | ->]; [| done].
    cbn [obind]. by rewrite quo_zero_divisor.
  - by rewrite quo_zero_divisor.
Qed.

(** C2: when a transport step (httpPost) or a decoding step
    (json.Unmarshal) of the cycle fails, Poll returns a non-nil error and
    leaves the provider, its ticker store included, exactly as it was. *)
Theorem Poll_fetch_failure p :
  fetchFails jsonMarshal httpPost unmarshalTokens unmarshalPools p →
  ∃ err,
    Poll jsonMarshal httpPost unmarshalTokens unmarshalPools floatToDec now p
    = Returned (Some err, p).
Proof.
  intros Hfail. unfold Poll.
  destruct (jsonMarshal tokenQuery) as [|d1] eqn:E1; [eauto |].
  destruct (httpPost (pollURL p) d1) as [|c1] eqn:E2; [eauto |].
  destruct (unmarshalTokens c1) as [|tr] eqn:E3; [eauto |].
  destruct (jsonMarshal poolQuery) as [|d2] eqn:E4; [eauto |].
  destruct (httpPost (pollURL p) d2) as [|c2] eqn:E5; [eauto |].
  destruct (unmarshalPools c2) as [|pr] eqn:E6; [eauto |].
  exfalso. destruct Hfail; congruence.
Qed.

(** C6: a pool whose liquidity is below 100000 is skipped: the loop body
    returns the ticker store as it found it, whatever the pool's assets
    and the configured pairs, and the loop over a reply gives what it
    gives on the reply without that pool. *)
Theorem pollPool_below_floor pairs tokens timestamp pool :
  (AstroportPool.Liquidity pool <? liquidityFloor)%float = true →
  (∀ tickers, pollPool floatToDec pairs tokens timestamp tickers pool = Returned tickers)
  ∧ (∀ tickers pre rest,
       pollPools floatToDec pairs tokens timestamp tickers (pre ++ pool :: rest)
       = pollPools floatToDec pairs tokens timestamp tickers (pre ++ rest)).
Proof.
  intros Hliq.
  assert (Hskip : ∀ tickers,
    pollPool floatToDec pairs tokens timestamp tickers pool = Returned tickers).
  { intros tickers. unfold pollPool. by rewrite Hliq. }
  split; [exact Hskip |].
  intros tickers pre rest. rewrite !pollPools_app.
  destruct (pollPools floatToDec pairs tokens timestamp tickers pre) as [tickers'|]; simpl;
    [| done].
  by rewrite Hskip.
Qed.

(** C8: a pool whose liquidity is not below 100000 (any liquidity at or
    above it, by [at_or_above_not_below]) and whose asset list has fewer
    than 2 elements makes getPoolAssets index out of range; Poll panics
    there instead of skipping the pool or returning an error. *)
Theorem Poll_panics_on_short_assets
    p tokensResponse poolsResponse pre pool rest tickers :
  fetched jsonMarshal httpPost unmarshalTokens unmarshalPools p
    tokensResponse poolsResponse →
  poolsOf poolsResponse = pre ++ pool :: rest →
  pollPools floatToDec (provider.pairs p) (buildTokens (tokensOf tokensResponse)) now
    (provider.tickers p) pre = Returned tickers →
  (AstroportPool.Liquidity pool <? liquidityFloor)%float = false →
  length (AstroportPool.Assets pool) < 2 →
  getPoolAssets (provider.pairs p) pool = Panicked IndexOutOfRange
  ∧ Poll jsonMarshal httpPost unmarshalTokens unmarshalPools floatToDec now p
    = Panicked IndexOutOfRange.
Proof.
  intros Hf Hpools Hpre Hliq Hlen.
  assert (Hget : getPoolAssets (provider.pairs p) pool = Panicked IndexOutOfRange).
  { unfold getPoolAssets, index.
    destruct (AstroportPool.Assets pool) as [|x [|y l]]; simpl in *;
      [done | done | lia]. }
  split; [exact Hget |].
  apply (Poll_panics_at _ _ _ _ _ _ _ _ Hf Hpools Hpre).
  unfold pollPool. by rewrite Hliq, Hget.
Qed.

(** C9: a pool that passes the liquidity floor, the pair matching and the
    token lookups divides by the decimal price of its assets without a
    guard: when the venue quotes 0 for the quote asset (price1.Quo(price2))
    or for the base asset (volume over price1), Poll panics on the division
    by zero instead of returning an error. *)
Theorem Poll_panics_on_zero_price
    p tokensResponse poolsResponse pre pool rest tickers a1 a2 token1 token2 :
  floatToDec 0%float = Dec.zero →
  fetched jsonMarshal httpPost unmarshalTokens unmarshalPools p
    tokensResponse poolsResponse →
  poolsOf poolsResponse = pre ++ pool :: rest →
  pollPools floatToDec (provider.pairs p) (buildTokens (tokensOf tokensResponse)) now
    (provider.tickers p) pre = Returned tickers →
  (AstroportPool.Liquidity pool <? liquidityFloor)%float = false →
  getPoolAssets (provider.pairs p) pool = Returned (a1, a2, true) →
  buildTokens (tokensOf tokensResponse) !! ToLower (AstroportAsset.Address a1)
  = Some token1 →
  buildTokens (tokensOf tokensResponse) !! ToLower (AstroportAsset.Address a2)
  = Some token2 →
  AstroportToken.Price token1 = 0%float ∨ AstroportToken.Price token2 = 0%float →
  Poll jsonMarshal httpPost unmarshalTokens unmarshalPools floatToDec now p
  = Panicked DivisionByZero.
Proof.
  intros Hconv Hf Hpools Hpre Hliq Hget H1 H2 Hzero.
  apply (Poll_panics_at _ _ _ _ _ _ _ _ Hf Hpools Hpre).
  apply (pollPool_zero_price _ _ _ _ _ _ _ _ _ Hliq Hget H1 H2).
  destruct Hzero as [-> | ->]; auto.
Qed.
End PollFacts.

Lemma Poll_fetch_failure_witness :
  fetchFails sampleMarshal (samplePost (inr "tokens") (inl "timeout"))
    (sampleUnmarshalTokens [lunaToken; usdcToken])
    (sampleUnmarshalPools [lunaUsdcPool]) sampleProvider
  ∧ ∃ err,
      samplePoll (inr "tokens") (inl "timeout") [lunaToken; usdcToken] [lunaUsdcPool]
      = Returned (Some err, sampleProvider).
Proof.
  assert (Hfail : fetchFails sampleMarshal (samplePost (inr "tokens") (inl "timeout"))
                    (sampleUnmarshalTokens [lunaToken; usdcToken])
                    (sampleUnmarshalPools [lunaUsdcPool]) sampleProvider).
  { apply (pools_transport_fails _ _ _ _ _ (AstroportQuery.Query poolQuery) "timeout");
      reflexivity. }
  split; [exact Hfail |].
  destruct (Poll_fetch_failure sampleMarshal (samplePost (inr "tokens") (inl "timeout"))
              (sampleUnmarshalTokens [lunaToken; usdcToken])
              (sampleUnmarshalPools [lunaUsdcPool]) floatToDecTrunc 42
              sampleProvider Hfail) as (err & Herr).
  exists err. exact Herr.
Defined.

Lemma pollPool_below_floor_witness :
  (AstroportPool.Liquidity thinPool <? liquidityFloor)%float = true
  ∧ pollPool floatToDecTrunc samplePairs (buildTokens [lunaToken; usdcToken]) 42
      staleTickers thinPool = Returned staleTickers.
Proof.
  assert (Hliq : (AstroportPool.Liquidity thinPool <? liquidityFloor)%float = true)
    by reflexivity.
  split; [exact Hliq |].
  exact (proj1 (pollPool_below_floor floatToDecTrunc samplePairs
                  (buildTokens [lunaToken; usdcToken]) 42 thinPool Hliq)
           staleTickers).
Defined.

Lemma sample_fetched tokens pools :
  fetched sampleMarshal (samplePost (inr "tokens") (inr "pools"))
    (sampleUnmarshalTokens tokens) (sampleUnmarshalPools pools) sampleProvider
    (AstroportTokensResponse.mk (AstroportTokensData.mk tokens))
    (AstroportPoolsResponse.mk (AstroportPoolsData.mk pools)).
Proof.
  exists (AstroportQuery.Query tokenQuery), "tokens"%string,
         (AstroportQuery.Query poolQuery), "pools"%string.
  repeat split; reflexivity.
Defined.

Lemma Poll_panics_on_short_assets_witness :
  (liquidityFloor <=? AstroportPool.Liquidity oneAssetPool)%float = true
  ∧ length (AstroportPool.Assets oneAssetPool) < 2
  ∧ samplePoll (inr "tokens") (inr "pools") [lunaToken; usdcToken]
      [lunaUsdcPool; oneAssetPool] = Panicked IndexOutOfRange.
Proof.
  assert (Hfloor : (liquidityFloor <=? AstroportPool.Liquidity oneAssetPool)%float
                   = true) by reflexivity.
  pose proof (at_or_above_not_below (AstroportPool.Liquidity oneAssetPool) Hfloor)
    as Hliq.
  assert (Hlen : length (AstroportPool.Assets oneAssetPool) < 2) by (simpl; lia).
  split; [exact Hfloor |]. split; [exact Hlen |].
  refine (proj2 (Poll_panics_on_short_assets sampleMarshal
                   (samplePost (inr "tokens") (inr "pools"))
                   (sampleUnmarshalTokens [lunaToken; usdcToken])
                   (sampleUnmarshalPools [lunaUsdcPool; oneAssetPool])
                   floatToDecTrunc 42 sampleProvider _ _
                   [lunaUsdcPool] oneAssetPool []
                   (<["LUNAUSDC"%string :=
                        TickerPrice.mk (Dec.ofDigits 5 1) (Dec.ofDigits 6000 0) 42]>
                      staleTickers)
                   (sample_fetched _ _) eq_refl _ Hliq Hlen)).
  vm_compute. reflexivity.
Defined.

Lemma Poll_panics_on_zero_price_witness :
  floatToDecTrunc 0%float = Dec.zero
  ∧ AstroportToken.Price freeUsdcToken = 0%float
  ∧ samplePoll (inr "tokens") (inr "pools") [lunaToken; freeUsdcToken]
      [lunaUsdcPool] = Panicked DivisionByZero.
Proof.
  assert (Hconv : floatToDecTrunc 0%float = Dec.zero) by reflexivity.
  split; [exact Hconv |]. split; [reflexivity |].
  refine (Poll_panics_on_zero_price sampleMarshal
            (samplePost (inr "tokens") (inr "pools"))
            (sampleUnmarshalTokens [lunaToken; freeUsdcToken])
            (sampleUnmarshalPools [lunaUsdcPool])
            floatToDecTrunc 42 sampleProvider _ _
            [] lunaUsdcPool [] staleTickers lunaAsset usdcAsset
            lunaToken freeUsdcToken
            Hconv (sample_fetched _ _) eq_refl eq_refl _ _ _ _ (or_intror eq_refl));
    vm_compute; reflexivity.
Defined.

(** ** The allow-list and the case of addresses *)

(** What a pass of the loop body that changes the store has found. *)
Lemma pollPool_writes_inv floatToDec (pairs : gmap string CurrencyPair)
    (tokens : gmap string AstroportToken) timestamp
    (tickers tickers' : gmap string TickerPrice) (pool : AstroportPool) :
  pollPool floatToDec pairs tokens timestamp tickers pool = Returned tickers' →
  tickers' = tickers
  ∨ ∃ a1 a2 token1 token2 price volume,
      a1 ∈ AstroportPool.Assets pool ∧ a2 ∈ AstroportPool.Assets pool
      ∧ is_Some (pairs !! pairKey a1 a2)
      ∧ tokens !! ToLower (AstroportAsset.Address a1) = Some token1
      ∧ tokens !! ToLower (AstroportAsset.Address a2) = Some token2
      ∧ tickers' = <[pairKey a1 a2 := TickerPrice.mk price volume timestamp]> tickers.
Proof.
  unfold pollPool. destruct (_ <? _)%float; [intros [= <-]; by left |].
  unfold getPoolAssets, index.
  destruct (AstroportPool.Assets pool !! 0) as [x|] eqn:Hx; simpl; [| done].
  destruct (AstroportPool.Assets pool !! 1) as [y|] eqn:Hy; simpl; [| done].
  apply list_elem_of_lookup_2 in Hx, Hy.
  assert (Hfound : ∀ a1 a2,
    a1 ∈ AstroportPool.Assets pool → a2 ∈ AstroportPool.Assets pool →
    is_Some (pairs !! pairKey a1 a2) →
    match tokens !! ToLower (AstroportAsset.Address a1) with
    | Some token1 =>
        match tokens !! ToLower (AstroportAsset.Address a2) with
        | Some token2 =>
            price ←! quo (floatToDec (AstroportToken.Price token1))
                       (floatToDec (AstroportToken.Price token2));
            volume ←! quo (floatToDec (AstroportPool.Volume pool))
                        (floatToDec (AstroportToken.Price token1));
            Returned (<[pairKey a1 a2 := TickerPrice.mk price volume timestamp]> tickers)
        | None => Returned tickers
        end
    | None => Returned tickers
    end = Returned tickers' →
    tickers' = tickers
    ∨ ∃ a1 a2 token1 token2 price volume,
        a1 ∈ AstroportPool.Assets pool ∧ a2 ∈ AstroportPool.Assets pool
        ∧ is_Some (pairs !! pairKey a1 a2)
        ∧ tokens !! ToLower (AstroportAsset.Address a1) = Some token1
        ∧ tokens !! ToLower (AstroportAsset.Address a2) = Some token2
        ∧ tickers' = <[pairKey a1 a2 := TickerPrice.mk price volume timestamp]> tickers).
  { intros a1 a2 H1 H2 Hpair.
    destruct (tokens !! ToLower (AstroportAsset.Address a1)) as [token1|] eqn:E1;
      [| intros [= <-]; by left].
    destruct (tokens !! ToLower (AstroportAsset.Address a2)) as [token2|] eqn:E2;
      [| intros [= <-]; by left].
    destruct (quo _ _) as [price|]; simpl; [| done].
    destruct (quo _ _) as [volume|]; simpl; [| done].
    intros [= <-]. right. exists a1, a2, token1, token2, price, volume.
    by rewrite E1, E2. }
  case_bool_decide as Hxy; simpl; [by apply Hfound |].
  case_bool_decide as Hyx; simpl; [by apply Hfound |].
  intros [= <-]. by left.
Qed.

(** A reply may list the address of a turned-away record a second time
    under a symbol that is not on the allow-list; that record enters the
    mapping, and the pool whose asset carries the allow-listed symbol at
    that address is priced. *)
Lemma spoofed_asset_pool_not_skipped : ¬ spoofed_asset_pool_skipped.
Proof.
  intros H.
  specialize (H floatToDecTrunc samplePairs [spoofedLuna; spoofAlias; usdcToken]
                42%Z staleTickers spoofPool spoofedLuna spoofAsset).
  assert (Hin : spoofedLuna ∈ [spoofedLuna; spoofAlias; usdcToken]) by left.
  assert (Hwl : ∃ address,
             whitelist !! AstroportToken.Symbol spoofedLuna = Some address
             ∧ AstroportToken.Address spoofedLuna ≠ address).
  { exists "uluna"%string. split; [reflexivity | discriminate]. }
  assert (Hasset : spoofAsset ∈ AstroportPool.Assets spoofPool) by left.
  specialize (H Hin Hwl Hasset eq_refl).
  apply (f_equal (λ o, match o with
                       | Returned tk => TickerPrice.Time <$> tk !! "LUNAUSDC"%string
                       | Panicked _ => None
                       end)) in H.
  vm_compute in H. discriminate.
Qed.

(** C5: the token loop tests the allow-list on the symbol of the token
    record, the pool loop matches the pair on the symbol of the pool asset,
    and nothing compares the two.  On the reply below the record
    {terra1spoof, LUNA} is passed over, the record {terra1spoof, MOON} is
    stored under the same address, and the pool [LUNA at terra1spoof, USDC]
    is not skipped: Poll writes LUNAUSDC at price 2.  The reply without the
    passed-over record gives the same store.  The comments of the code
    ("ignore pools with non whitelisted assets") say the pool is to be
    ignored. *)
Theorem Poll_prices_spoofed_pool :
  skipToken spoofedLuna = true
  ∧ spoofAsset ∈ AstroportPool.Assets spoofPool
  ∧ AstroportAsset.Symbol spoofAsset = AstroportToken.Symbol spoofedLuna
  ∧ AstroportAsset.Address spoofAsset = AstroportToken.Address spoofedLuna
  ∧ whitelist !! AstroportAsset.Symbol spoofAsset = Some "uluna"%string
  ∧ AstroportAsset.Address spoofAsset ≠ "uluna"%string
  ∧ buildTokens [spoofedLuna; spoofAlias; usdcToken]
      !! ToLower (AstroportAsset.Address spoofAsset) = Some spoofAlias
  ∧ samplePollFrom [spoofedLuna; spoofAlias; usdcToken] [spoofPool] sampleProvider
    = Returned (None, provider.setTickers sampleProvider spoofedTickers)
  ∧ samplePollFrom [spoofAlias; usdcToken] [spoofPool] sampleProvider
    = Returned (None, provider.setTickers sampleProvider spoofedTickers)
  ∧ spoofedTickers !! "LUNAUSDC"%string ≠ staleTickers !! "LUNAUSDC"%string.
Proof.
  split; [reflexivity |]. split; [left |].
  split; [reflexivity |]. split; [reflexivity |].
  split; [reflexivity |]. split; [discriminate |].
  split; [reflexivity |].
  split; [vm_compute; reflexivity |]. split; [vm_compute; reflexivity |].
  vm_compute. discriminate.
Qed.

(** What the allow-list does secure: a token record whose symbol is on the
    allow-list under another address is never stored in the token mapping,
    and a pool one of whose two leading assets has, in lower case, an
    address at which every record of the reply is passed over is skipped. *)
Lemma allow_list_excludes_spoofed (floatToDec : float → Dec)
    (pairs : gmap string CurrencyPair) (tokensList : list AstroportToken)
    (timestamp : Z) (tickers : gmap string TickerPrice) (pool : AstroportPool)
    (t : AstroportToken) (address : string) (a x y : AstroportAsset) :
  t ∈ tokensList →
  whitelist !! AstroportToken.Symbol t = Some address →
  AstroportToken.Address t ≠ address →
  AstroportPool.Assets pool !! 0 = Some x →
  AstroportPool.Assets pool !! 1 = Some y →
  a = x ∨ a = y →
  ToLower (AstroportAsset.Address a) = AstroportToken.Address t →
  Forall (λ t', AstroportToken.Address t' = AstroportToken.Address t →
                skipToken t' = true) tokensList →
  (∀ k, buildTokens tokensList !! k ≠ Some t)
  ∧ buildTokens tokensList !! ToLower (AstroportAsset.Address a) = None
  ∧ pollPool floatToDec pairs (buildTokens tokensList) timestamp tickers pool
    = Returned tickers.
Proof.
  intros Hin Hwl Hne Hx Hy Ha Haddr Hall.
  assert (Hskip : skipToken t = true) by (apply skipToken_true; eauto).
  assert (Hnone : buildTokens tokensList !! ToLower (AstroportAsset.Address a) = None).
  { rewrite Haddr. by apply buildTokens_lookup_None. }
  split.
  { intros k (_ & _ & Hs)%buildTokens_lookup. congruence. }
  split; [exact Hnone |].
  apply (pollPool_unknown_address _ _ _ _ _ _ x y Hx Hy).
  destruct Ha as [-> | ->]; auto.
Qed.

Lemma allow_list_excludes_spoofed_witness :
  buildTokens [spoofedLuna; usdcToken] !! "terra1spoof"%string = None
  ∧ pollPool floatToDecTrunc samplePairs (buildTokens [spoofedLuna; usdcToken])
      42 staleTickers spoofPool = Returned staleTickers.
Proof.
  assert (Hall : Forall (λ t', AstroportToken.Address t'
                               = AstroportToken.Address spoofedLuna →
                               skipToken t' = true) [spoofedLuna; usdcToken]).
  { apply List.Forall_cons; [intros _; reflexivity |].
    apply List.Forall_cons; [discriminate | apply List.Forall_nil]. }
  destruct (allow_list_excludes_spoofed floatToDecTrunc samplePairs
              [spoofedLuna; usdcToken] 42 staleTickers spoofPool spoofedLuna
              "uluna" spoofAsset spoofAsset usdcAsset)
    as (_ & Hnone & Hskip);
    [ left | reflexivity | discriminate | reflexivity | reflexivity
    | by left | reflexivity | exact Hall | ].
  split; [exact Hnone | exact Hskip].
Defined.



(** * Further properties of the provider *)

(** ** getPoolAssets *)

Lemma getPoolAssets_two (pairs : gmap string CurrencyPair) (pool : AstroportPool) x y :
  AstroportPool.Assets pool !! 0 = Some x →
  AstroportPool.Assets pool !! 1 = Some y →
  getPoolAssets pairs pool
  = if bool_decide (is_Some (pairs !! pairKey x y)) then Returned (x, y, true)
    else if bool_decide (is_Some (pairs !! pairKey y x)) then Returned (y, x, true)
    else Returned (AstroportAsset.empty, AstroportAsset.empty, false).
Proof. intros Hx Hy. unfold getPoolAssets, index. by rewrite Hx, Hy. Qed.

Lemma getPoolAssets_short (pairs : gmap string CurrencyPair) (pool : AstroportPool) :
  length (AstroportPool.Assets pool) < 2 →
  getPoolAssets pairs pool = Panicked IndexOutOfRange.
Proof.
  unfold getPoolAssets, index.
  destruct (AstroportPool.Assets pool) as [|x [|y l]]; simpl; [done | done | lia].
Qed.

Lemma getPoolAssets_neither (pairs : gmap string CurrencyPair)
    (pool : AstroportPool) (x y : AstroportAsset) :
  AstroportPool.Assets pool !! 0 = Some x →
  AstroportPool.Assets pool !! 1 = Some y →
  pairs !! pairKey x y = None →
  pairs !! pairKey y x = None →
  getPoolAssets pairs pool
  = Returned (AstroportAsset.empty, AstroportAsset.empty, false).
Proof.
  intros Hx Hy Hxy Hyx. rewrite (getPoolAssets_two _ _ _ _ Hx Hy).
  rewrite !bool_decide_eq_false_2; [done | |];
    intros [? ?]; congruence.
Qed.

(** X1: when getPoolAssets answers true, the two assets it returns form a
    configured pair in the order returned, and they are the two leading
    assets of the pool, swapped only when the listed order is not itself a
    configured pair. *)
Theorem getPoolAssets_sound (pairs : gmap string CurrencyPair)
    (pool : AstroportPool) (a1 a2 : AstroportAsset) :
  getPoolAssets pairs pool = Returned (a1, a2, true) →
  is_Some (pairs !! pairKey a1 a2)
  ∧ ((AstroportPool.Assets pool !! 0 = Some a1
      ∧ AstroportPool.Assets pool !! 1 = Some a2)
     ∨ (AstroportPool.Assets pool !! 0 = Some a2
        ∧ AstroportPool.Assets pool !! 1 = Some a1
        ∧ pairs !! pairKey a2 a1 = None)).
Proof.
  unfold getPoolAssets, index.
  destruct (AstroportPool.Assets pool !! 0) as [x|]; simpl; [| done].
  destruct (AstroportPool.Assets pool !! 1) as [y|]; simpl; [| done].
  case_bool_decide as Hxy; [intros [= <- <-]; auto |].
  case_bool_decide as Hyx; [| done].
  intros [= <- <-]. split; [done |]. right. repeat split.
  by apply eq_None_not_Some.
Qed.

Lemma getPoolAssets_sound_witness :
  getPoolAssets samplePairs reversedPool = Returned (lunaAsset, usdcAsset, true)
  ∧ is_Some (samplePairs !! pairKey lunaAsset usdcAsset)
  ∧ samplePairs !! pairKey usdcAsset lunaAsset = None.
Proof.
  assert (H : getPoolAssets samplePairs reversedPool
              = Returned (lunaAsset, usdcAsset, true)) by reflexivity.
  split; [exact H |].
  destruct (getPoolAssets_sound samplePairs reversedPool lunaAsset usdcAsset H)
    as [Hkey Horder].
  split; [exact Hkey | reflexivity].
Defined.

(** X2: on a pool with at least two assets getPoolAssets answers false,
    with two empty assets, exactly when neither order of the two leading
    assets is a configured pair. *)
Theorem getPoolAssets_false_iff (pairs : gmap string CurrencyPair)
    (pool : AstroportPool) (x y : AstroportAsset) :
  AstroportPool.Assets pool !! 0 = Some x →
  AstroportPool.Assets pool !! 1 = Some y →
  (pairs !! pairKey x y = None ∧ pairs !! pairKey y x = None)
  ↔ getPoolAssets pairs pool
    = Returned (AstroportAsset.empty, AstroportAsset.empty, false).
Proof.
  intros Hx Hy. split.
  - intros [Hxy Hyx]. by apply (getPoolAssets_neither pairs pool x y).
  - rewrite (getPoolAssets_two _ _ _ _ Hx Hy).
    case_bool_decide as Hxy; [done |]. case_bool_decide as Hyx; [done |].
    intros _. split; by apply eq_None_not_Some.
Qed.

Lemma getPoolAssets_false_iff_witness :
  samplePairs !! pairKey astroAsset usdcAsset = None
  ∧ samplePairs !! pairKey usdcAsset astroAsset = None
  ∧ getPoolAssets samplePairs astroPool
    = Returned (AstroportAsset.empty, AstroportAsset.empty, false).
Proof.
  assert (H : samplePairs !! pairKey astroAsset usdcAsset = None
              ∧ samplePairs !! pairKey usdcAsset astroAsset = None)
    by (split; reflexivity).
  split; [exact (proj1 H) |]. split; [exact (proj2 H) |].
  exact (proj1 (getPoolAssets_false_iff samplePairs astroPool astroAsset usdcAsset
                  eq_refl eq_refl) H).
Defined.

(** X3: getPoolAssets panics exactly when the pool has fewer than two
    assets, and then with an index out of range. *)
Theorem getPoolAssets_panics_iff (pairs : gmap string CurrencyPair)
    (pool : AstroportPool) (why : panic) :
  getPoolAssets pairs pool = Panicked why
  ↔ length (AstroportPool.Assets pool) < 2 ∧ why = IndexOutOfRange.
Proof.
  split.
  - unfold getPoolAssets, index.
    destruct (AstroportPool.Assets pool) as [|x [|y l]]; simpl.
    + intros [= <-]. split; [lia | done].
    + intros [= <-]. split; [lia | done].
    + repeat case_bool_decide; discriminate.
  - intros [Hlen ->]. by apply getPoolAssets_short.
Qed.

(** X4: getPoolAssets reads the two leading assets only: two pools that
    agree on them get the same answer, whatever else they list. *)
Theorem getPoolAssets_leading (pairs : gmap string CurrencyPair)
    (pool pool' : AstroportPool) :
  take 2 (AstroportPool.Assets pool) = take 2 (AstroportPool.Assets pool') →
  getPoolAssets pairs pool = getPoolAssets pairs pool'.
Proof.
  intros Htake. unfold getPoolAssets, index.
  assert (H0 : AstroportPool.Assets pool !! 0 = AstroportPool.Assets pool' !! 0).
  { rewrite <- (lookup_take_lt (AstroportPool.Assets pool) 2 0) by lia.
    rewrite Htake. apply lookup_take_lt. lia. }
  assert (H1 : AstroportPool.Assets pool !! 1 = AstroportPool.Assets pool' !! 1).
  { rewrite <- (lookup_take_lt (AstroportPool.Assets pool) 2 1) by lia.
    rewrite Htake. apply lookup_take_lt. lia. }
  by rewrite H0, H1.
Qed.

Lemma getPoolAssets_leading_witness :
  take 2 (AstroportPool.Assets threeAssetPool)
  = take 2 (AstroportPool.Assets lunaUsdcPool)
  ∧ getPoolAssets samplePairs threeAssetPool
    = getPoolAssets samplePairs lunaUsdcPool.
Proof.
  assert (H : take 2 (AstroportPool.Assets threeAssetPool)
              = take 2 (AstroportPool.Assets lunaUsdcPool)) by reflexivity.
  split; [exact H |].
  exact (getPoolAssets_leading samplePairs threeAssetPool lunaUsdcPool H).
Defined.

(** ** The token loop *)

(** X6: the allow-list restricts two symbols only: a token record is passed
    over exactly when its symbol is USDC or LUNA and its address is not the
    one listed for that symbol; every other record is stored. *)
Theorem skipToken_iff (token : AstroportToken) :
  skipToken token = true
  ↔ (AstroportToken.Symbol token = "USDC"%string
     ∧ AstroportToken.Address token ≠ usdcAddress)
    ∨ (AstroportToken.Symbol token = "LUNA"%string
       ∧ AstroportToken.Address token ≠ "uluna"%string).
Proof.
  rewrite skipToken_true. unfold whitelist. split.
  - intros (address & Hlk & Hne).
    destruct (decide (AstroportToken.Symbol token = "USDC"%string)) as [E|NE].
    + left. split; [done |]. rewrite E, lookup_insert_eq in Hlk.
      injection Hlk as <-. exact Hne.
    + rewrite lookup_insert_ne in Hlk by done.
      apply lookup_singleton_Some in Hlk as [<- <-]. by right.
  - intros [[E Hne] | [E Hne]]; rewrite E.
    + exists usdcAddress. by rewrite lookup_insert_eq.
    + exists "uluna"%string. split; [reflexivity | done].
Qed.

Lemma foldl_admitToken_last k l : ∀ acc,
  foldl admitToken acc l !! k
  = match last (filter (λ t, skipToken t = false
                             ∧ AstroportToken.Address t = k) l) with
    | Some t => Some t
    | None => acc !! k
    end.
Proof.
  induction l as [|t l IH] using rev_ind; intros acc; [reflexivity |].
  rewrite foldl_snoc, filter_app, last_app, filter_cons, filter_nil.
  unfold admitToken. destruct (skipToken t) eqn:Hskip.
  - rewrite decide_False by (intros [? _]; congruence). apply IH.
  - destruct (decide (AstroportToken.Address t = k)) as [E|NE].
    + rewrite decide_True by done. simpl. by rewrite <- E, lookup_insert_eq.
    + rewrite decide_False by (intros [_ ?]; congruence). simpl.
      rewrite lookup_insert_ne by done. apply IH.
Qed.

(** X7: under an address the token mapping holds the last record of the
    reply that has this address and was not passed over, and nothing when
    there is no such record: later records replace earlier ones. *)
Theorem buildTokens_last (l : list AstroportToken) (k : string) :
  buildTokens l !! k
  = last (filter (λ t, skipToken t = false ∧ AstroportToken.Address t = k) l).
Proof.
  unfold buildTokens. rewrite foldl_admitToken_last, lookup_empty.
  by destruct (last _).
Qed.

(** X8: an entry of the token mapping whose symbol is on the allow-list sits
    at the allow-listed address, under that very key. *)
Theorem buildTokens_canonical (l : list AstroportToken) (k address : string)
    (tok : AstroportToken) :
  buildTokens l !! k = Some tok →
  whitelist !! AstroportToken.Symbol tok = Some address →
  k = address ∧ AstroportToken.Address tok = address.
Proof.
  intros (_ & Hk & Hskip)%buildTokens_lookup Hwl.
  unfold skipToken in Hskip. rewrite Hwl in Hskip.
  apply bool_decide_eq_false in Hskip. apply dec_stable in Hskip.
  split; congruence.
Qed.

Lemma buildTokens_canonical_witness :
  buildTokens [spoofedLuna; lunaToken; usdcToken] !! "uluna"%string = Some lunaToken
  ∧ whitelist !! AstroportToken.Symbol lunaToken = Some "uluna"%string
  ∧ AstroportToken.Address lunaToken = "uluna"%string.
Proof.
  assert (H1 : buildTokens [spoofedLuna; lunaToken; usdcToken] !! "uluna"%string
               = Some lunaToken) by reflexivity.
  assert (H2 : whitelist !! AstroportToken.Symbol lunaToken = Some "uluna"%string)
    by reflexivity.
  split; [exact H1 |]. split; [exact H2 |].
  exact (proj2 (buildTokens_canonical _ _ _ _ H1 H2)).
Defined.

(** X9: a record that is not passed over can be found again: the mapping
    has an entry under its address, and that entry is the record itself
    when no later record of the reply has the same address. *)
Theorem buildTokens_admitted (pre post : list AstroportToken) (t : AstroportToken) :
  skipToken t = false →
  is_Some (buildTokens (pre ++ t :: post) !! AstroportToken.Address t)
  ∧ (Forall (λ t', AstroportToken.Address t' ≠ AstroportToken.Address t) post →
     buildTokens (pre ++ t :: post) !! AstroportToken.Address t = Some t).
Proof.
  intros Hskip. unfold buildTokens.
  rewrite foldl_admitToken_last, lookup_empty.
  assert (Hlast : ∀ o : option AstroportToken,
            match o with Some t' => Some t' | None => None end = o)
    by (by intros []).
  rewrite Hlast, filter_app, filter_cons, decide_True by done.
  split.
  - apply last_is_Some. intros H. by apply app_eq_nil in H as [_ ?].
  - intros Hpost.
    assert (Hnil : filter (λ t', skipToken t' = false
                     ∧ AstroportToken.Address t' = AstroportToken.Address t) post
                   = []).
    { induction Hpost as [|t' post Ht' _ IH]; [done |].
      rewrite filter_cons, decide_False by (intros [_ ?]; done). exact IH. }
    rewrite Hnil. apply last_snoc.
Qed.

Lemma buildTokens_admitted_witness :
  skipToken spoofAlias = false
  ∧ buildTokens ([spoofedLuna] ++ spoofAlias :: [usdcToken])
      !! AstroportToken.Address spoofAlias = Some spoofAlias.
Proof.
  assert (Hskip : skipToken spoofAlias = false) by reflexivity.
  split; [exact Hskip |].
  apply (proj2 (buildTokens_admitted [spoofedLuna] [usdcToken] spoofAlias Hskip)).
  apply List.Forall_cons; [discriminate | apply List.Forall_nil].
Defined.

(** ** The pool loop *)

Lemma hasLower_ToUpper s : hasLower (ToUpper s) = false.
Proof.
  unfold ToUpper. induction s as [|a s IH]; [reflexivity |]. simpl.
  rewrite IH, orb_false_r.
  destruct a as [[] [] [] [] [] [] [] []]; reflexivity.
Qed.

(** X5: a configured pair whose key has a lower-case letter is matched by
    no pool, since the key looked up is in upper case: when every configured
    key has one, getPoolAssets answers false on every pool with two assets. *)
Theorem getPoolAssets_lower_case_keys (pairs : gmap string CurrencyPair)
    (pool : AstroportPool) (x y : AstroportAsset) :
  (∀ k, is_Some (pairs !! k) → hasLower k = true) →
  AstroportPool.Assets pool !! 0 = Some x →
  AstroportPool.Assets pool !! 1 = Some y →
  getPoolAssets pairs pool
  = Returned (AstroportAsset.empty, AstroportAsset.empty, false).
Proof.
  intros Hkeys Hx Hy.
  apply (getPoolAssets_neither pairs pool x y Hx Hy);
    apply eq_None_not_Some; intros H%Hkeys;
    unfold pairKey in H; rewrite hasLower_ToUpper in H; discriminate.
Qed.

Lemma getPoolAssets_lower_case_keys_witness :
  is_Some (lowerCasePairs !! "lunausdc"%string)
  ∧ getPoolAssets lowerCasePairs lunaUsdcPool
    = Returned (AstroportAsset.empty, AstroportAsset.empty, false).
Proof.
  split; [by eexists |].
  apply (getPoolAssets_lower_case_keys lowerCasePairs lunaUsdcPool lunaAsset usdcAsset);
    [| reflexivity | reflexivity].
  intros k [cp Hk]. unfold lowerCasePairs in Hk.
  apply lookup_singleton_Some in Hk as [<- _]. reflexivity.
Defined.

Section LoopFacts.
Variable floatToDec : float → Dec.

Implicit Types (pairs : gmap string CurrencyPair)
  (tokens : gmap string AstroportToken) (tickers : gmap string TickerPrice)
  (pool : AstroportPool).

(** X10: a pool neither order of whose two leading assets is a configured
    pair is skipped, whatever its liquidity and whatever the token mapping
    holds: no error, no panic, the store as it was. *)
Theorem pollPool_unconfigured pairs tokens timestamp tickers pool x y :
  AstroportPool.Assets pool !! 0 = Some x →
  AstroportPool.Assets pool !! 1 = Some y →
  pairs !! pairKey x y = None →
  pairs !! pairKey y x = None →
  pollPool floatToDec pairs tokens timestamp tickers pool = Returned tickers.
Proof.
  intros Hx Hy Hxy Hyx. unfold pollPool.
  destruct (_ <? _)%float; [done |].
  by rewrite (getPoolAssets_neither pairs pool x y Hx Hy Hxy Hyx).
Qed.

(** X11: a pool that is not below the floor, whose two assets form a
    configured pair and are both found in the token mapping at prices that
    convert to non-zero decimals, writes one entry: under the upper-case
    concatenation of the two symbols, with price price1 / price2, volume
    pool volume / price1 and the timestamp of the cycle.  The two
    numerators, price1 and the pool volume, are below 2^255 as scaled
    integers, which keeps both quotients within the decimal's bit length. *)
Theorem pollPool_writes pairs tokens timestamp tickers pool a1 a2 token1 token2 :
  (AstroportPool.Liquidity pool <? liquidityFloor)%float = false →
  getPoolAssets pairs pool = Returned (a1, a2, true) →
  tokens !! ToLower (AstroportAsset.Address a1) = Some token1 →
  tokens !! ToLower (AstroportAsset.Address a2) = Some token2 →
  Dec.raw (floatToDec (AstroportToken.Price token1)) ≠ 0%Z →
  Dec.raw (floatToDec (AstroportToken.Price token2)) ≠ 0%Z →
  (Z.abs (Dec.raw (floatToDec (AstroportToken.Price token1))) < 2 ^ 255)%Z →
  (Z.abs (Dec.raw (floatToDec (AstroportPool.Volume pool))) < 2 ^ 255)%Z →
  ∃ price volume,
    Dec.Quo (floatToDec (AstroportToken.Price token1))
            (floatToDec (AstroportToken.Price token2)) = Some price
    ∧ Dec.Quo (floatToDec (AstroportPool.Volume pool))
              (floatToDec (AstroportToken.Price token1)) = Some volume
    ∧ pollPool floatToDec pairs tokens timestamp tickers pool
      = Returned (<[ToUpper (AstroportAsset.Symbol a1 +:+ AstroportAsset.Symbol a2)
                    := TickerPrice.mk price volume timestamp]> tickers).
Proof.
  intros Hliq Hget H1 H2 Hp1 Hp2 Hb1 Hbv.
  destruct (quo_returns (floatToDec (AstroportToken.Price token1)) _ Hp2 Hb1)
    as (price & Hprice & Hqp).
  destruct (quo_returns (floatToDec (AstroportPool.Volume pool)) _ Hp1 Hbv)
    as (volume & Hvolume & Hqv).
  exists price, volume. split; [done |]. split; [done |].
  unfold pollPool. rewrite Hliq, Hget. cbn [obind]. rewrite H1, H2.
  by rewrite Hqp, Hqv.
Qed.

(** What one pass of the loop body leaves under a key: what was there, or
    an entry of a configured pair with the timestamp of the cycle. *)
Lemma pollPool_entry pairs tokens timestamp tickers tickers' pool k :
  pollPool floatToDec pairs tokens timestamp tickers pool = Returned tickers' →
  tickers' !! k = tickers !! k
  ∨ (is_Some (pairs !! k)
     ∧ ∃ tp, tickers' !! k = Some tp ∧ TickerPrice.Time tp = timestamp).
Proof.
  intros [-> | (a1 & a2 & t1 & t2 & price & volume & _ & _ & Hpair & _ & _ & ->)]
    %pollPool_writes_inv; [by left |].
  destruct (decide (pairKey a1 a2 = k)) as [<- | Hne].
  - right. split; [done |]. eexists. by rewrite lookup_insert_eq.
  - left. by rewrite lookup_insert_ne.
Qed.

Lemma pollPools_entry pairs tokens timestamp pools : ∀ tickers tickers' k,
  pollPools floatToDec pairs tokens timestamp tickers pools = Returned tickers' →
  tickers' !! k = tickers !! k
  ∨ (is_Some (pairs !! k)
     ∧ ∃ tp, tickers' !! k = Some tp ∧ TickerPrice.Time tp = timestamp).
Proof.
  induction pools as [|pool pools IH]; intros tickers tickers' k; simpl.
  - intros [= <-]. by left.
  - destruct (pollPool floatToDec pairs tokens timestamp tickers pool)
      as [tickers1|] eqn:Hstep; simpl; [| done].
    intros [Hsame | Hnew]%(IH _ _ k); [| by right].
    rewrite Hsame. by apply (pollPool_entry _ _ _ _ _ _ _ Hstep).
Qed.

(** The loop panics on no reply in which every pool that is not below the
    floor has at least two assets and a volume below 2^255 as a scaled
    integer, and every token of the mapping has a price that converts to a
    non-zero decimal below 2^255 as a scaled integer. *)
Lemma pollPools_returns pairs tokens timestamp pools :
  Forall (λ pool, (AstroportPool.Liquidity pool <? liquidityFloor)%float = true
                  ∨ (2 ≤ length (AstroportPool.Assets pool)
                     ∧ (Z.abs (Dec.raw (floatToDec (AstroportPool.Volume pool)))
                        < 2 ^ 255)%Z)) pools →
  (∀ k token, tokens !! k = Some token →
              Dec.raw (floatToDec (AstroportToken.Price token)) ≠ 0%Z
              ∧ (Z.abs (Dec.raw (floatToDec (AstroportToken.Price token)))
                 < 2 ^ 255)%Z) →
  ∀ tickers,
    ∃ tickers', pollPools floatToDec pairs tokens timestamp tickers pools
                = Returned tickers'.
Proof.
  intros Hpools Hprices.
  induction Hpools as [|pool pools Hpool _ IH]; intros tickers; simpl; [eauto |].
  assert (Hstep : ∃ tickers1,
    pollPool floatToDec pairs tokens timestamp tickers pool = Returned tickers1).
  { unfold pollPool.
    destruct (_ <? _)%float eqn:Hliq; [eauto |].
    destruct Hpool as [? | [Hlen Hvol]]; [done |].
    destruct (AstroportPool.Assets pool) as [|x [|y l]] eqn:Hassets;
      simpl in Hlen; [lia | lia |].
    rewrite (getPoolAssets_two pairs pool x y) by (by rewrite Hassets).
    assert (Hgo : ∀ a1 a2, ∃ tickers1,
      match tokens !! ToLower (AstroportAsset.Address a1) with
      | Some token1 =>
          match tokens !! ToLower (AstroportAsset.Address a2) with
          | Some token2 =>
              price ←! quo (floatToDec (AstroportToken.Price token1))
                         (floatToDec (AstroportToken.Price token2));
              volume ←! quo (floatToDec (AstroportPool.Volume pool))
                          (floatToDec (AstroportToken.Price token1));
              Returned (<[pairKey a1 a2
                          := TickerPrice.mk price volume timestamp]> tickers)
          | None => Returned tickers
          end
      | None => Returned tickers
      end = Returned tickers1).
    { intros a1 a2.
      destruct (tokens !! ToLower (AstroportAsset.Address a1)) as [t1|] eqn:E1;
        [| eauto].
      destruct (tokens !! ToLower (AstroportAsset.Address a2)) as [t2|] eqn:E2;
        [| eauto].
      destruct (Hprices _ _ E1) as [Hn1 Hb1], (Hprices _ _ E2) as [Hn2 _].
      destruct (quo_returns (floatToDec (AstroportToken.Price t1)) _ Hn2 Hb1)
        as (price & _ & ->).
      destruct (quo_returns (floatToDec (AstroportPool.Volume pool)) _ Hn1 Hvol)
        as (volume & _ & ->).
      cbn [obind]. eauto. }
    repeat case_bool_decide; simpl; eauto. }
  destruct Hstep as [tickers1 ->]. simpl. apply IH.
Qed.

(** What the loop body does to a store does not depend on the store. *)
Lemma pollPool_store_independent pairs tokens timestamp tickers pool :
  (∃ why, ∀ tickers0,
      pollPool floatToDec pairs tokens timestamp tickers0 pool = Panicked why)
  ∨ (∃ writes, ∀ tickers0,
      pollPool floatToDec pairs tokens timestamp tickers0 pool
      = Returned (applyWrites tickers0 writes)).
Proof.
  unfold pollPool.
  destruct (_ <? _)%float; [right; by exists [] |].
  destruct (getPoolAssets pairs pool) as [[[a1 a2] ok]|why]; simpl;
    [| left; by exists why].
  destruct ok; simpl; [| right; by exists []].
  destruct (tokens !! ToLower (AstroportAsset.Address a1)) as [t1|];
    [| right; by exists []].
  destruct (tokens !! ToLower (AstroportAsset.Address a2)) as [t2|];
    [| right; by exists []].
  destruct (quo _ _) as [price|why]; simpl; [| left; by exists why].
  destruct (quo _ _) as [volume|why]; simpl; [| left; by exists why].
  right. by exists [(pairKey a1 a2, TickerPrice.mk price volume timestamp)].
Qed.

Lemma applyWrites_app tickers ws ws' :
  applyWrites tickers (ws ++ ws') = applyWrites (applyWrites tickers ws) ws'.
Proof. apply foldl_app. Qed.

Lemma pollPools_store_independent pairs tokens timestamp pools :
  (∃ why, ∀ tickers0,
      pollPools floatToDec pairs tokens timestamp tickers0 pools = Panicked why)
  ∨ (∃ writes, ∀ tickers0,
      pollPools floatToDec pairs tokens timestamp tickers0 pools
      = Returned (applyWrites tickers0 writes)).
Proof.
  induction pools as [|pool pools IH]; simpl; [right; by exists [] |].
  destruct (pollPool_store_independent pairs tokens timestamp ∅ pool)
    as [[why Hp] | [ws Hp]].
  - left. exists why. intros tickers0. by rewrite Hp.
  - destruct IH as [[why Hl] | [ws' Hl]].
    + left. exists why. intros tickers0. rewrite Hp. simpl. apply Hl.
    + right. exists (ws ++ ws'). intros tickers0.
      rewrite Hp. simpl. by rewrite Hl, applyWrites_app.
Qed.

Lemma applyWrites_lookup k ws : ∀ tickers,
  applyWrites tickers ws !! k
  = match last (filter (λ kv, kv.1 = k) ws) with
    | Some kv => Some kv.2
    | None => tickers !! k
    end.
Proof.
  induction ws as [|[k' v] ws IH] using rev_ind; intros tickers; [reflexivity |].
  rewrite applyWrites_app, filter_app, last_app, filter_cons, filter_nil. simpl.
  destruct (decide (k' = k)) as [-> | Hne]; simpl.
  - by rewrite lookup_insert_eq.
  - rewrite lookup_insert_ne by done. apply IH.
Qed.

Lemma applyWrites_idemp tickers ws :
  applyWrites (applyWrites tickers ws) ws = applyWrites tickers ws.
Proof.
  apply map_eq. intros k. rewrite !applyWrites_lookup.
  by destruct (last _).
Qed.

(** The loop does not read the store it writes to.  Whether it panics is
    the same from every store, and from the store a run has produced a
    second run over the same pools, token mapping and timestamp returns
    that store again. *)
Lemma pollPools_idempotent pairs tokens timestamp pools tickers :
  (∀ why tickers0,
     pollPools floatToDec pairs tokens timestamp tickers pools = Panicked why →
     pollPools floatToDec pairs tokens timestamp tickers0 pools = Panicked why)
  ∧ (∀ tickers',
       pollPools floatToDec pairs tokens timestamp tickers pools = Returned tickers' →
       pollPools floatToDec pairs tokens timestamp tickers' pools = Returned tickers').
Proof.
  destruct (pollPools_store_independent pairs tokens timestamp pools)
    as [[why Hl] | [ws Hl]]; split.
  - intros why' tickers0. rewrite !Hl. done.
  - intros tickers'. by rewrite Hl.
  - intros why tickers0. by rewrite Hl.
  - intros tickers'. rewrite Hl. intros [= <-].
    by rewrite Hl, applyWrites_idemp.
Qed.
End LoopFacts.

Lemma pollPool_unconfigured_witness :
  samplePairs !! pairKey astroAsset usdcAsset = None
  ∧ samplePairs !! pairKey usdcAsset astroAsset = None
  ∧ pollPool floatToDecTrunc samplePairs (buildTokens [lunaToken; usdcToken]) 42
      staleTickers astroPool = Returned staleTickers.
Proof.
  split; [reflexivity |]. split; [reflexivity |].
  exact (pollPool_unconfigured floatToDecTrunc samplePairs
           (buildTokens [lunaToken; usdcToken]) 42 staleTickers astroPool
           astroAsset usdcAsset eq_refl eq_refl eq_refl eq_refl).
Defined.

Lemma pollPool_writes_witness :
  getPoolAssets samplePairs reversedPool = Returned (lunaAsset, usdcAsset, true)
  ∧ pollPool floatToDecTrunc samplePairs (buildTokens [lunaToken; usdcToken]) 42
      staleTickers reversedPool
    = Returned (<["LUNAUSDC"%string
                  := TickerPrice.mk (Dec.ofDigits 5 1) (Dec.ofDigits 6000 0) 42]>
                  staleTickers).
Proof.
  split; [reflexivity |].
  destruct (pollPool_writes floatToDecTrunc samplePairs
              (buildTokens [lunaToken; usdcToken]) 42 staleTickers reversedPool
              lunaAsset usdcAsset lunaToken usdcToken)
    as (price & volume & Hprice & Hvolume & Hrun);
    [reflexivity | reflexivity | reflexivity | reflexivity
    | vm_compute; discriminate | vm_compute; discriminate
    | vm_compute; reflexivity | vm_compute; reflexivity |].
  rewrite Hrun.
  assert (Ep : price = Dec.ofDigits 5 1) by (vm_compute in Hprice; injection Hprice as <-; reflexivity).
  assert (Ev : volume = Dec.ofDigits 6000 0) by (vm_compute in Hvolume; injection Hvolume as <-; reflexivity).
  by rewrite Ep, Ev.
Defined.

(** ** Poll as a whole *)

Section PollOutcome.
Variable jsonMarshal : AstroportQuery → error + string.
Variable httpPost : string → string → error + string.
Variable unmarshalTokens : string → error + AstroportTokensResponse.
Variable unmarshalPools : string → error + AstroportPoolsResponse.
Variable floatToDec : float → Dec.
Variable now : Z.

Implicit Types (p : AstroportProvider).

(** Poll either stops at a failing step, with that error and the provider
    as it was, or has both replies and runs the loop. *)
Lemma Poll_cases p :
  (∃ err,
     Poll jsonMarshal httpPost unmarshalTokens unmarshalPools floatToDec now p
     = Returned (Some err, p)
     ∧ ¬ ∃ tokensResponse poolsResponse,
           fetched jsonMarshal httpPost unmarshalTokens unmarshalPools p
             tokensResponse poolsResponse)
  ∨ (∃ tokensResponse poolsResponse,
       fetched jsonMarshal httpPost unmarshalTokens unmarshalPools p
         tokensResponse poolsResponse
       ∧ Poll jsonMarshal httpPost unmarshalTokens unmarshalPools floatToDec now p
         = (tickers ←! pollPools floatToDec (provider.pairs p)
                         (buildTokens (tokensOf tokensResponse)) now
                         (provider.tickers p) (poolsOf poolsResponse);
            Returned (None, provider.setTickers p tickers))).
Proof.
  unfold Poll, fetched.
  destruct (jsonMarshal tokenQuery) as [e|d1] eqn:E1.
  { left. exists e. split; [done |]. intros (?&?&?&?&?&?&?&?&?&?&?&?). congruence. }
  destruct (httpPost (pollURL p) d1) as [e|c1] eqn:E2.
  { left. exists e. split; [done |]. intros (?&?&?&?&?&?&?&?&?&?&?&?). congruence. }
  destruct (unmarshalTokens c1) as [e|tr] eqn:E3.
  { left. exists e. split; [done |]. intros (?&?&?&?&?&?&?&?&?&?&?&?). congruence. }
  destruct (jsonMarshal poolQuery) as [e|d2] eqn:E4.
  { left. exists e. split; [done |]. intros (?&?&?&?&?&?&?&?&?&?&?&?). congruence. }
  destruct (httpPost (pollURL p) d2) as [e|c2] eqn:E5.
  { left. exists e. split; [done |]. intros (?&?&?&?&?&?&?&?&?&?&?&?). congruence. }
  destruct (unmarshalPools c2) as [e|pr] eqn:E6.
  { left. exists e. split; [done |]. intros (?&?&?&?&?&?&?&?&?&?&?&?). congruence. }
  right. exists tr, pr. split; [| done]. by exists d1, c1, d2, c2.
Qed.

(** X12: whenever Poll returns an error, whichever step it comes from, the
    provider is exactly as before and the two replies were not both
    fetched and decoded. *)
Theorem Poll_error_unchanged p err p' :
  Poll jsonMarshal httpPost unmarshalTokens unmarshalPools floatToDec now p
  = Returned (Some err, p') →
  p' = p
  ∧ ¬ ∃ tokensResponse poolsResponse,
        fetched jsonMarshal httpPost unmarshalTokens unmarshalPools p
          tokensResponse poolsResponse.
Proof.
  destruct (Poll_cases p) as [(e & -> & Hno) | (tr & pr & _ & ->)].
  - intros [= <- <-]. done.
  - destruct (pollPools _ _ _ _ _ _); simpl; discriminate.
Qed.

(** X13: Poll returns nil exactly when both replies were fetched and
    decoded and the pool loop ran to its end; the provider it leaves is the
    old one with the store the loop produced. *)
Theorem Poll_nil_iff p p' :
  Poll jsonMarshal httpPost unmarshalTokens unmarshalPools floatToDec now p
  = Returned (None, p')
  ↔ ∃ tokensResponse poolsResponse tickers,
      fetched jsonMarshal httpPost unmarshalTokens unmarshalPools p
        tokensResponse poolsResponse
      ∧ pollPools floatToDec (provider.pairs p)
          (buildTokens (tokensOf tokensResponse)) now (provider.tickers p)
          (poolsOf poolsResponse) = Returned tickers
      ∧ p' = provider.setTickers p tickers.
Proof.
  split.
  - destruct (Poll_cases p) as [(e & -> & _) | (tr & pr & Hf & ->)]; [done |].
    destruct (pollPools _ _ _ _ _ _) as [tickers|] eqn:Hloop; simpl; [| done].
    intros [= <-]. by exists tr, pr, tickers.
  - intros (tr & pr & tickers & Hf & Hloop & ->).
    rewrite (Poll_fetched _ _ _ _ _ _ _ _ _ Hf), Hloop. done.
Qed.

(** X14: Poll writes to the ticker store only: whatever it returns, the
    endpoints and the configured pairs of the provider are as before, no
    key of the store is removed, and an entry that differs from the one
    before the call is under a configured pair and carries the timestamp of
    this cycle. *)
Theorem Poll_store_frame p result p' :
  Poll jsonMarshal httpPost unmarshalTokens unmarshalPools floatToDec now p
  = Returned (result, p') →
  provider.endpoints p' = provider.endpoints p
  ∧ provider.pairs p' = provider.pairs p
  ∧ ∀ k,
      (is_Some (provider.tickers p !! k) → is_Some (provider.tickers p' !! k))
      ∧ (provider.tickers p' !! k ≠ provider.tickers p !! k →
         is_Some (provider.pairs p !! k)
         ∧ ∃ tp, provider.tickers p' !! k = Some tp ∧ TickerPrice.Time tp = now).
Proof.
  destruct (Poll_cases p) as [(e & -> & _) | (tr & pr & _ & ->)].
  - intros [= <- <-]. repeat split; done.
  - destruct (pollPools _ _ _ _ _ _) as [tickers|] eqn:Hloop; simpl; [| done].
    intros [= <- <-]. split; [done |]. split; [done |]. intros k. simpl.
    destruct (pollPools_entry _ _ _ _ _ _ _ k Hloop) as [-> | (Hpair & tp & Htp & Ht)].
    + split; done.
    + split; [by rewrite Htp | intros _; eauto].
Qed.

(** X15: with both replies in, Poll returns nil, without a panic, on every
    reply in which each pool that is not below the floor has at least two
    assets and a volume below 2^255 as a scaled integer, and each token
    record has a price that converts to a non-zero decimal below 2^255 as a
    scaled integer: no index is out of range, no divisor is zero and no
    quotient exceeds the decimal's bit length. *)
Theorem Poll_returns_nil p tokensResponse poolsResponse :
  fetched jsonMarshal httpPost unmarshalTokens unmarshalPools p
    tokensResponse poolsResponse →
  Forall (λ pool, (AstroportPool.Liquidity pool <? liquidityFloor)%float = true
                  ∨ (2 ≤ length (AstroportPool.Assets pool)
                     ∧ (Z.abs (Dec.raw (floatToDec (AstroportPool.Volume pool)))
                        < 2 ^ 255)%Z))
    (poolsOf poolsResponse) →
  Forall (λ token, Dec.raw (floatToDec (AstroportToken.Price token)) ≠ 0%Z
                   ∧ (Z.abs (Dec.raw (floatToDec (AstroportToken.Price token)))
                      < 2 ^ 255)%Z)
    (tokensOf tokensResponse) →
  ∃ tickers,
    Poll jsonMarshal httpPost unmarshalTokens unmarshalPools floatToDec now p
    = Returned (None, provider.setTickers p tickers).
Proof.
  intros Hf Hpools Htokens.
  destruct (pollPools_returns floatToDec (provider.pairs p)
              (buildTokens (tokensOf tokensResponse)) now (poolsOf poolsResponse)
              Hpools) with (tickers := provider.tickers p) as [tickers Hloop].
  { intros k token (Hin & _ & _)%buildTokens_lookup.
    rewrite Forall_forall in Htokens. by apply Htokens. }
  exists tickers. rewrite (Poll_fetched _ _ _ _ _ _ _ _ _ Hf), Hloop. done.
Qed.

(** X16: polling twice on the same replies at the same time is polling
    once: from the provider a successful Poll leaves, Poll returns nil and
    leaves that provider again. *)
Theorem Poll_idempotent p p' :
  Poll jsonMarshal httpPost unmarshalTokens unmarshalPools floatToDec now p
  = Returned (None, p') →
  Poll jsonMarshal httpPost unmarshalTokens unmarshalPools floatToDec now p'
  = Returned (None, p').
Proof.
  destruct (Poll_cases p) as [(e & -> & _) | (tr & pr & Hf & ->)]; [done |].
  destruct (pollPools _ _ _ _ _ _) as [tickers|] eqn:Hloop; simpl; [| done].
  intros [= <-].
  assert (Hf' : fetched jsonMarshal httpPost unmarshalTokens unmarshalPools
                  (provider.setTickers p tickers) tr pr) by exact Hf.
  rewrite (Poll_fetched _ _ _ _ _ _ _ _ _ Hf'). simpl.
  by rewrite (proj2 (pollPools_idempotent _ _ _ _ _ _) _ Hloop).
Qed.
End PollOutcome.

Lemma Poll_error_unchanged_witness :
  samplePoll (inl "connection refused") (inr "pools") [lunaToken; usdcToken]
    [lunaUsdcPool] = Returned (Some "connection refused"%string, sampleProvider)
  ∧ ¬ ∃ tokensResponse poolsResponse,
        fetched sampleMarshal (samplePost (inl "connection refused") (inr "pools"))
          (sampleUnmarshalTokens [lunaToken; usdcToken])
          (sampleUnmarshalPools [lunaUsdcPool]) sampleProvider
          tokensResponse poolsResponse.
Proof.
  assert (H : samplePoll (inl "connection refused") (inr "pools")
                [lunaToken; usdcToken] [lunaUsdcPool]
              = Returned (Some "connection refused"%string, sampleProvider))
    by reflexivity.
  split; [exact H |].
  exact (proj2 (Poll_error_unchanged sampleMarshal
                  (samplePost (inl "connection refused") (inr "pools"))
                  (sampleUnmarshalTokens [lunaToken; usdcToken])
                  (sampleUnmarshalPools [lunaUsdcPool]) floatToDecTrunc 42
                  sampleProvider _ _ H)).
Defined.

Lemma sample_poll_fresh :
  samplePollFrom [lunaToken; usdcToken] [lunaUsdcPool] sampleProvider
  = Returned (None, provider.setTickers sampleProvider freshTickers).
Proof. vm_compute. reflexivity. Defined.

Lemma Poll_store_frame_witness :
  samplePollFrom [lunaToken; usdcToken] [lunaUsdcPool] sampleProvider
  = Returned (None, provider.setTickers sampleProvider freshTickers)
  ∧ freshTickers !! "LUNAUSDC"%string ≠ staleTickers !! "LUNAUSDC"%string
  ∧ is_Some (samplePairs !! "LUNAUSDC"%string)
  ∧ ∃ tp, freshTickers !! "LUNAUSDC"%string = Some tp ∧ TickerPrice.Time tp = 42%Z.
Proof.
  assert (Hne : freshTickers !! "LUNAUSDC"%string ≠ staleTickers !! "LUNAUSDC"%string)
    by (vm_compute; discriminate).
  split; [exact sample_poll_fresh |]. split; [exact Hne |].
  destruct (Poll_store_frame sampleMarshal
              (samplePost (inr "tokens"%string) (inr "pools"%string))
              (sampleUnmarshalTokens [lunaToken; usdcToken])
              (sampleUnmarshalPools [lunaUsdcPool]) floatToDecTrunc 42
              sampleProvider None
              (provider.setTickers sampleProvider freshTickers) sample_poll_fresh)
    as (_ & _ & Hk).
  exact (proj2 (Hk "LUNAUSDC"%string) Hne).
Defined.

Lemma Poll_returns_nil_witness :
  ∃ tickers,
    samplePollFrom [lunaToken; usdcToken] [thinPool; lunaUsdcPool; threeAssetPool]
      sampleProvider
    = Returned (None, provider.setTickers sampleProvider tickers).
Proof.
  apply (Poll_returns_nil sampleMarshal
           (samplePost (inr "tokens"%string) (inr "pools"%string))
           (sampleUnmarshalTokens [lunaToken; usdcToken])
           (sampleUnmarshalPools [thinPool; lunaUsdcPool; threeAssetPool])
           floatToDecTrunc 42 sampleProvider _ _ (sample_fetched _ _)).
  - apply List.Forall_cons; [left; reflexivity |].
    apply List.Forall_cons;
      [right; split; [simpl; lia | vm_compute; reflexivity] |].
    apply List.Forall_cons;
      [right; split; [simpl; lia | vm_compute; reflexivity] | apply List.Forall_nil].
  - apply List.Forall_cons;
      [split; [vm_compute; discriminate | vm_compute; reflexivity] |].
    apply List.Forall_cons;
      [split; [vm_compute; discriminate | vm_compute; reflexivity]
      | apply List.Forall_nil].
Defined.

Lemma Poll_idempotent_witness :
  samplePollFrom [lunaToken; usdcToken] [lunaUsdcPool] sampleProvider
  = Returned (None, provider.setTickers sampleProvider freshTickers)
  ∧ samplePollFrom [lunaToken; usdcToken] [lunaUsdcPool]
      (provider.setTickers sampleProvider freshTickers)
    = Returned (None, provider.setTickers sampleProvider freshTickers).
Proof.
  split; [exact sample_poll_fresh |].
  exact (Poll_idempotent sampleMarshal
           (samplePost (inr "tokens"%string) (inr "pools"%string))
           (sampleUnmarshalTokens [lunaToken; usdcToken])
           (sampleUnmarshalPools [lunaUsdcPool]) floatToDecTrunc 42
           sampleProvider _ sample_poll_fresh).
Defined.

(** X17: the order in which a pool lists its two leading assets does not
    matter, unless both orders are configured pairs: the pool with the two
    assets swapped, at the same liquidity and volume, leaves the same store
    or panics the same way. *)
Theorem pollPool_swap (floatToDec : float → Dec)
    (pairs : gmap string CurrencyPair) (tokens : gmap string AstroportToken)
    (timestamp : Z) (tickers : gmap string TickerPrice)
    (pool pool' : AstroportPool) (x y : AstroportAsset) :
  AstroportPool.Assets pool !! 0 = Some x →
  AstroportPool.Assets pool !! 1 = Some y →
  AstroportPool.Assets pool' !! 0 = Some y →
  AstroportPool.Assets pool' !! 1 = Some x →
  AstroportPool.Liquidity pool' = AstroportPool.Liquidity pool →
  AstroportPool.Volume pool' = AstroportPool.Volume pool →
  pairs !! pairKey x y = None ∨ pairs !! pairKey y x = None →
  pollPool floatToDec pairs tokens timestamp tickers pool'
  = pollPool floatToDec pairs tokens timestamp tickers pool.
Proof.
  intros Hx Hy Hy' Hx' Hliq Hvol Hone. unfold pollPool.
  rewrite Hliq, Hvol.
  rewrite (getPoolAssets_two pairs pool x y Hx Hy),
          (getPoolAssets_two pairs pool' y x Hy' Hx').
  case_bool_decide as Hxy; case_bool_decide as Hyx; try reflexivity.
  destruct Hxy as [? Hxy], Hyx as [? Hyx], Hone; congruence.
Qed.

Lemma pollPool_swap_witness :
  samplePairs !! pairKey usdcAsset lunaAsset = None
  ∧ pollPool floatToDecTrunc samplePairs (buildTokens [lunaToken; usdcToken]) 42
      staleTickers reversedPool
    = pollPool floatToDecTrunc samplePairs (buildTokens [lunaToken; usdcToken]) 42
        staleTickers lunaUsdcPool.
Proof.
  assert (H : samplePairs !! pairKey usdcAsset lunaAsset = None) by reflexivity.
  split; [exact H |].
  exact (pollPool_swap floatToDecTrunc samplePairs
           (buildTokens [lunaToken; usdcToken]) 42 staleTickers
           lunaUsdcPool reversedPool lunaAsset usdcAsset
           eq_refl eq_refl eq_refl eq_refl eq_refl eq_refl (or_intror H)).
Defined.
